(** * ztp_network_automation: validation and deployment engine

    A shallow embedding of [src/ztp_implementation_2_10_2025.py]
    (module [network_config]) and the properties of its validation rules
    and of its deployment loop.

    Conventions of the embedding.
    - A Python value that reaches the module from [json.load] is a [pyval];
      dataclass fields are not type checked by Python, so they hold [pyval]s.
    - A [str] is a Rocq [string]; its characters are read as code points
      0..255.
    - A method is a computation in the monad [M]: it threads the state of
      the object it works on, may raise an exception, and emits the events
      a caller of the module can observe (log records, calls into
      [ipaddress], invocations of a device).
    - The exceptions of the embedding are the instances of Python's
      [Exception]; [KeyboardInterrupt] and [SystemExit] are not modelled. *)

From Stdlib Require Import List String Ascii ZArith QArith Bool Arith Lia.
From Stdlib Require Import Permutation.
Import ListNotations.
Open Scope string_scope.
Open Scope list_scope.
Open Scope Z_scope.

Set Implicit Arguments.
Set Warnings "-register-all".


(** ** Values *)

(** A float is kept as the number it denotes: a finite float is a rational,
    which is all that comparison and equality look at. *)
Inductive pyfloat : Type :=
| FNaN
| FInf (negative : bool)
| FFin (q : Q).

Inductive pyval : Type :=
| PNone
| PBool (b : bool)
| PInt (z : Z)
| PFloat (f : pyfloat)
| PStr (s : string)
| PList (l : list pyval)
| PDict (d : list (string * pyval)).

(** A [dict] with [str] keys, in insertion order. *)
Definition pydict : Type := list (string * pyval).

Fixpoint dict_get (k : string) (d : pydict) : option pyval :=
  match d with
  | [] => None
  | (k', v) :: rest => if String.eqb k k' then Some v else dict_get k rest
  end.

(** [k in d] *)
Definition dict_mem (k : string) (d : pydict) : bool :=
  match dict_get k d with Some _ => true | None => false end.

(** [d.get(k, default)] *)
Definition dict_get_default (k : string) (default : pyval) (d : pydict) : pyval :=
  match dict_get k d with Some v => v | None => default end.

(** ** Exceptions *)

(** The class of an exception, as far as the [except] clauses of the module
    tell classes apart; a subclass counts as its base ([AddressValueError]
    and [NetmaskValueError] are [ValueError]s). *)
Inductive exn_class : Type :=
| ValueError
| TypeError
| AttributeError
| OtherException.

Record exn : Type := mkExn { exn_cls : exn_class; exn_msg : string }.

Definition is_ValueError (e : exn) : bool :=
  match exn_cls e with ValueError => true | _ => false end.

(** [except Exception] *)
Definition is_Exception (e : exn) : bool := true.

(** ** Events *)

Inductive level : Type := INFO | ERROR.

(** A value interpolated into a log message. *)
Inductive log_arg : Type :=
| AVal (v : pyval)
| AExn (e : exn).

(** A record handed to [logger]: the f-string with [{}] where a value is
    interpolated, and the values, not rendered. *)
Record log_record : Type :=
  mkLog { log_level : level; log_text : string; log_args : list log_arg }.

(** A device: [Router], [Switch], or any other subclass of
    [NetworkDevice], with the attributes [__init__] sets. *)
Inductive device_kind : Type := Router | Switch | Custom.

Record NetworkDevice : Type :=
  mkDevice { kind : device_kind; hostname : string; ip : string }.

Inductive event : Type :=
| EvLog (r : log_record)
| EvIpNetwork (arg : pyval)          (* ipaddress.ip_network(arg) is called *)
| EvIpAddress (arg : pyval)          (* ipaddress.ip_address(arg) is called *)
| EvDeploy (device : NetworkDevice). (* device.deploy_config(config) is called *)

(** ** The monad of methods *)

Inductive res (A : Type) : Type :=
| Val (a : A)
| Exc (e : exn).
Arguments Val {A} a.
Arguments Exc {A} e.

Section Monad.
Variable S : Type.

Definition M (A : Type) : Type := S -> res A * S * list event.

Definition ret {A} (a : A) : M A := fun s => (Val a, s, []).

Definition raise {A} (e : exn) : M A := fun s => (Exc e, s, []).

Definition bind {A B} (m : M A) (f : A -> M B) : M B :=
  fun s =>
    match m s with
    | (Val a, s1, t1) =>
        match f a s1 with
        | (r, s2, t2) => (r, s2, t1 ++ t2)
        end
    | (Exc e, s1, t1) => (Exc e, s1, t1)
    end.

(** [try: m  except <catches> as e: handler e] *)
Definition try_except {A} (m : M A) (catches : exn -> bool)
           (handler : exn -> M A) : M A :=
  fun s =>
    match m s with
    | (Exc e, s1, t1) =>
        if catches e then
          match handler e s1 with
          | (r, s2, t2) => (r, s2, t1 ++ t2)
          end
        else (Exc e, s1, t1)
    | done => done
    end.

Definition emit (ev : event) : M unit := fun s => (Val tt, s, [ev]).

Definition gets {A} (f : S -> A) : M A := fun s => (Val (f s), s, []).

Definition modify (f : S -> S) : M unit := fun s => (Val tt, f s, []).

(** A result of a pure step, as a computation. *)
Definition lift_res {A} (r : res A) : M A := fun s => (r, s, []).
End Monad.

Arguments ret {S A} a.
Arguments raise {S A} e.
Arguments bind {S A B} m f.
Arguments try_except {S A} m catches handler.
Arguments emit {S} ev.
Arguments gets {S A} f.
Arguments modify {S} f.
Arguments lift_res {S A} r.

Declare Scope py_scope.
Delimit Scope py_scope with py.
Notation "x <- m ;; k" := (bind m (fun x => k))
  (at level 61, m at next level, right associativity) : py_scope.
Notation "m ;; k" := (bind m (fun _ => k))
  (at level 61, right associativity) : py_scope.
Open Scope py_scope.

Definition result_of {S A} (o : res A * S * list event) : res A := fst (fst o).
Definition state_of {S A} (o : res A * S * list event) : S := snd (fst o).
Definition events_of {S A} (o : res A * S * list event) : list event := snd o.

(** [logger.error(f"...")] and [logger.info(f"...")] *)
Definition logger_error {S} (text : string) (args : list log_arg) : M S unit :=
  emit (EvLog (mkLog ERROR text args)).
Definition logger_info {S} (text : string) (args : list log_arg) : M S unit :=
  emit (EvLog (mkLog INFO text args)).

(** ** Strings *)

(** [s.split(sep)] for a separator of one character. *)
Fixpoint py_split (sep : ascii) (s : string) : list string :=
  match s with
  | EmptyString => [EmptyString]
  | String c rest =>
      if Ascii.eqb c sep then EmptyString :: py_split sep rest
      else match py_split sep rest with
           | g :: gs => String c g :: gs
           | [] => [String c EmptyString]
           end
  end.

(** [s.replace(old, '')] for [old] of one character. *)
Fixpoint py_remove (old : ascii) (s : string) : string :=
  match s with
  | EmptyString => EmptyString
  | String c rest =>
      if Ascii.eqb c old then py_remove old rest
      else String c (py_remove old rest)
  end.

(** The groups one after the other, nothing in between. *)
Fixpoint join (groups : list string) : string :=
  match groups with
  | [] => EmptyString
  | g :: rest => (g ++ join rest)%string
  end.

(** *** [int(s, 16)], after CPython's [PyLong_FromUnicodeObject] and
    [PyLong_FromString] (3.6 and later). *)

Definition code (c : ascii) : N := N_of_ascii c.

(** [Py_ISSPACE]: tab, line feed, vertical tab, form feed, carriage return,
    space. *)
Definition Py_ISSPACE (c : ascii) : bool :=
  ((9 <=? code c) && (code c <=? 13) || (code c =? 32))%N.

(** [Py_UNICODE_ISSPACE] on the code points 127..255: NEL and NBSP. *)
Definition Py_UNICODE_ISSPACE_high (c : ascii) : bool :=
  ((code c =? 133) || (code c =? 160))%N.

(** [_PyUnicode_TransformDecimalAndSpaceToASCII]: a character below 127 is
    kept; above, a space becomes " " and anything else "?" (no character of
    127..255 is a decimal digit). CPython cuts the string after the first
    "?"; the parse fails at that character either way. *)
Definition transform_char (c : ascii) : ascii :=
  if (code c <? 127)%N then c
  else if Py_UNICODE_ISSPACE_high c then " "%char
  else "?"%char.

(** [_PyLong_DigitValue] below 16. *)
Definition hex_digit_value (c : ascii) : option Z :=
  let n := code c in
  if ((48 <=? n) && (n <=? 57))%N then Some (Z.of_N n - 48)
  else if ((97 <=? n) && (n <=? 102))%N then Some (Z.of_N n - 87)
  else if ((65 <=? n) && (n <=? 70))%N then Some (Z.of_N n - 55)
  else None.

Fixpoint skip_spaces (l : list ascii) : list ascii :=
  match l with
  | c :: rest => if Py_ISSPACE c then skip_spaces rest else l
  | [] => []
  end.

(** The digit loop: digits and single underscores between them. Returns
    the number of digits read, their value and the rest of the input;
    [None] on a doubled or trailing underscore. *)
Fixpoint scan_hex (prev_underscore : bool) (digits : nat) (acc : Z)
         (l : list ascii) : option (nat * Z * list ascii) :=
  match l with
  | c :: rest =>
      if Ascii.eqb c "_"%char then
        if prev_underscore then None else scan_hex true digits acc rest
      else
        match hex_digit_value c with
        | Some d => scan_hex false (Datatypes.S digits) (16 * acc + d) rest
        | None => if prev_underscore then None else Some (digits, acc, l)
        end
  | [] => if prev_underscore then None else Some (digits, acc, [])
  end.

Definition strip_sign (l : list ascii) : bool * list ascii :=
  match l with
  | c :: rest =>
      if Ascii.eqb c "+"%char then (false, rest)
      else if Ascii.eqb c "-"%char then (true, rest)
      else (false, l)
  | [] => (false, [])
  end.

(** The base prefix "0x" or "0X", and the one underscore allowed after it. *)
Definition strip_prefix16 (l : list ascii) : list ascii :=
  match l with
  | z :: x :: rest =>
      if Ascii.eqb z "0"%char && (Ascii.eqb x "x"%char || Ascii.eqb x "X"%char)
      then match rest with
           | u :: rest' => if Ascii.eqb u "_"%char then rest' else rest
           | [] => rest
           end
      else l
  | _ => l
  end.

(** [int(s, 16)]: [None] stands for [ValueError]. *)
Definition py_int16 (s : string) : option Z :=
  let l := skip_spaces (map transform_char (list_ascii_of_string s)) in
  let '(negative, l) := strip_sign l in
  let l := strip_prefix16 l in
  match l with
  | c :: _ => if Ascii.eqb c "_"%char then None else
      match scan_hex false 0 0 l with
      | Some (Datatypes.S _, v, rest) =>
          match skip_spaces rest with
          | [] => Some (if negative then - v else v)
          | _ :: _ => None
          end
      | _ => None
      end
  | [] => None
  end.

(** ** Operations of the interpreter on values *)

(** The message of an exception the interpreter raises is not modelled:
    the text only says where it comes from. *)
Definition type_error (what : string) : exn := mkExn TypeError what.
Definition attribute_error (what : string) : exn := mkExn AttributeError what.

(** [iter(v)], run to its end. *)
Definition py_iter (v : pyval) : res (list pyval) :=
  match v with
  | PList l => Val l
  | PStr s => Val (map (fun c => PStr (String c EmptyString)) (list_ascii_of_string s))
  | PDict d => Val (map (fun kv => PStr (fst kv)) d)
  | _ => Exc (type_error "object is not iterable")
  end.

(** [v.items()] *)
Definition py_items (v : pyval) : res pydict :=
  match v with
  | PDict d => Val d
  | _ => Exc (attribute_error "object has no attribute 'items'")
  end.

(** [bool(v)] *)
Definition py_truthy (v : pyval) : bool :=
  match v with
  | PNone => false
  | PBool b => b
  | PInt z => negb (z =? 0)
  | PFloat FNaN => true
  | PFloat (FInf _) => true
  | PFloat (FFin q) => negb (Qeq_bool q 0)
  | PStr s => negb (String.eqb s "")
  | PList l => match l with [] => false | _ => true end
  | PDict d => match d with [] => false | _ => true end
  end.

(** [a <= v] for an [int] literal [a]. *)
Definition py_int_le (a : Z) (v : pyval) : res bool :=
  match v with
  | PBool b => Val (a <=? (if b then 1 else 0))
  | PInt z => Val (a <=? z)
  | PFloat FNaN => Val false
  | PFloat (FInf negative) => Val (negb negative)
  | PFloat (FFin q) => Val (Qle_bool (inject_Z a) q)
  | _ => Exc (type_error "'<=' not supported between instances")
  end.

(** [v <= b] for an [int] literal [b]. *)
Definition py_le_int (v : pyval) (b : Z) : res bool :=
  match v with
  | PBool c => Val ((if c then 1 else 0) <=? b)
  | PInt z => Val (z <=? b)
  | PFloat FNaN => Val false
  | PFloat (FInf negative) => Val negative
  | PFloat (FFin q) => Val (Qle_bool q (inject_Z b))
  | _ => Exc (type_error "'<=' not supported between instances")
  end.

(** [a <= v <= b]: the second comparison runs only when the first holds. *)
Definition py_between (a : Z) (v : pyval) (b : Z) : res bool :=
  match py_int_le a v with
  | Val true => py_le_int v b
  | other => other
  end.

Definition py_hashable (v : pyval) : bool :=
  match v with
  | PList _ | PDict _ => false
  | _ => true
  end.

(** The number a [bool], [int] or finite [float] denotes. *)
Definition py_number (v : pyval) : option Q :=
  match v with
  | PBool b => Some (if b then 1%Q else 0%Q)
  | PInt z => Some (inject_Z z)
  | PFloat (FFin q) => Some q
  | _ => None
  end.

(** Whether two hashable values are the same element of a set: numbers by
    their value across [bool], [int] and [float], strings by their text.
    (A NaN is found again by identity: [json.load] yields one NaN object.) *)
Definition py_same_key (v w : pyval) : bool :=
  match py_number v, py_number w with
  | Some a, Some b => Qeq_bool a b
  | _, _ =>
      match v, w with
      | PNone, PNone => true
      | PStr a, PStr b => String.eqb a b
      | PFloat FNaN, PFloat FNaN => true
      | PFloat (FInf a), PFloat (FInf b) => Bool.eqb a b
      | _, _ => false
      end
  end.

(** [set(l)], as the list of its elements in insertion order. *)
Fixpoint py_set_from (seen : list pyval) (l : list pyval) : res (list pyval) :=
  match l with
  | [] => Val seen
  | v :: rest =>
      if py_hashable v then
        py_set_from (if existsb (py_same_key v) seen then seen else seen ++ [v]) rest
      else Exc (type_error "unhashable type")
  end.

Definition py_set (l : list pyval) : res (list pyval) := py_set_from [] l.

(** A dataclass with the given fields, all required, called with the
    mapping [v] unpacked into keyword arguments: the
    keyword arguments, or the [TypeError] for a [v] that is no mapping, a
    missing field or an unexpected keyword. *)
Definition dataclass_kwargs (fields : list string) (v : pyval) : res pydict :=
  match v with
  | PDict d =>
      if forallb (fun kv => existsb (String.eqb (fst kv)) fields) d
         && forallb (fun f => dict_mem f d) fields
      then Val d
      else Exc (type_error "__init__() got unexpected or missing arguments")
  | _ => Exc (type_error "argument after ** must be a mapping")
  end.

Fixpoint map_res {A B} (f : A -> res B) (l : list A) : res (list B) :=
  match l with
  | [] => Val []
  | x :: rest =>
      match f x with
      | Val y => match map_res f rest with
                 | Val ys => Val (y :: ys)
                 | Exc e => Exc e
                 end
      | Exc e => Exc e
      end
  end.

(** ** The ipaddress library

    [ipaddress.ip_network] and [ipaddress.ip_address] are not part of the
    module. On a [str] they return or raise [ValueError]; the module keeps
    no result of theirs, so [None] stands for a return and [Some msg] for
    [ValueError(msg)]. What they do with a value that is no [str] is left
    to the [_dyn] components. *)
Class Ipaddress : Type := {
  ip_network_str : string -> option string;
  ip_address_str : string -> option string;
  ip_network_dyn : pyval -> option exn;
  ip_address_dyn : pyval -> option exn
}.

Section Library.
Context {lib : Ipaddress}.

Definition ip_network_outcome (v : pyval) : option exn :=
  match v with
  | PStr s => option_map (mkExn ValueError) (ip_network_str s)
  | _ => ip_network_dyn v
  end.

Definition ip_address_outcome (v : pyval) : option exn :=
  match v with
  | PStr s => option_map (mkExn ValueError) (ip_address_str s)
  | _ => ip_address_dyn v
  end.

(** [ipaddress.ip_network(v)], its result dropped. *)
Definition ip_network {S} (v : pyval) : M S unit :=
  emit (EvIpNetwork v);;
  match ip_network_outcome v with
  | None => ret tt
  | Some e => raise e
  end.

(** [ipaddress.ip_address(v)], its result dropped. *)
Definition ip_address {S} (v : pyval) : M S unit :=
  emit (EvIpAddress v);;
  match ip_address_outcome v with
  | None => ret tt
  | Some e => raise e
  end.
End Library.

(** ** class DHCPConfig *)
Module DHCPConfig.

Record t : Type := mk { reservations : pyval; subnet : pyval; gateway : pyval }.

(** The constructor called with the mapping [v] unpacked. *)
Definition new (v : pyval) : res t :=
  match dataclass_kwargs ["reservations"; "subnet"; "gateway"] v with
  | Val d =>
      match dict_get "reservations" d, dict_get "subnet" d, dict_get "gateway" d with
      | Some r, Some s, Some g => Val (mk r s g)
      | _, _, _ => Exc (type_error "__init__() got unexpected or missing arguments")
      end
  | Exc e => Exc e
  end.

Definition _is_valid_mac (mac : string) : bool :=
  if negb (Nat.eqb (List.length (py_split ":"%char mac)) 6) then false
  else match py_int16 (py_remove ":"%char mac) with
       | Some _ => true
       | None => false
       end.

Section Methods.
Context {lib : Ipaddress} {S : Type}.

(** The loop over [self.reservations.items()] and the [return True] after
    it; [false] is the [return False] inside the loop. *)
Fixpoint reservations_loop (items : pydict) : M S bool :=
  match items with
  | [] => ret true
  | (mac, ip) :: rest =>
      if negb (_is_valid_mac mac) then
        logger_error "Invalid MAC address format: {}" [AVal (PStr mac)];;
        ret false
      else
        ip_address ip;;
        reservations_loop rest
  end.

Definition validate (self : t) : M S bool :=
  try_except
    (ip_network (subnet self);;
     ip_address (gateway self);;
     items <- lift_res (py_items (reservations self));;
     reservations_loop items)
    is_ValueError
    (fun e => logger_error "DHCP validation error: {}" [AExn e];; ret false).
End Methods.
End DHCPConfig.

(** ** class VLANConfig *)
Module VLANConfig.

Record t : Type := mk { id : pyval; name : pyval; subnet : pyval }.

(** The constructor called with the mapping [v] unpacked. *)
Definition new (v : pyval) : res t :=
  match dataclass_kwargs ["id"; "name"; "subnet"] v with
  | Val d =>
      match dict_get "id" d, dict_get "name" d, dict_get "subnet" d with
      | Some i, Some n, Some s => Val (mk i n s)
      | _, _, _ => Exc (type_error "__init__() got unexpected or missing arguments")
      end
  | Exc e => Exc e
  end.

Section Methods.
Context {lib : Ipaddress} {S : Type}.

Definition validate (self : t) : M S bool :=
  try_except
    (in_range <- lift_res (py_between 1 (id self) 4094);;
     if negb in_range then
       logger_error "Invalid VLAN ID: {}" [AVal (id self)];;
       ret false
     else
       ip_network (subnet self);;
       ret true)
    is_ValueError
    (fun e => logger_error "VLAN validation error: {}" [AExn e];; ret false).
End Methods.
End VLANConfig.

(** ** class NetworkConfig *)
Module NetworkConfig.

Record t : Type := mk {
  dhcp : option DHCPConfig.t;
  vlans : list VLANConfig.t;
  dns_servers : pyval;
  firewall_rules : pyval
}.

(** The object [cls()] creates. *)
Definition __init__ : t :=
  {| dhcp := None; vlans := []; dns_servers := PList []; firewall_rules := PList [] |}.

Definition set_dhcp (v : option DHCPConfig.t) (self : t) : t :=
  mk v (vlans self) (dns_servers self) (firewall_rules self).
Definition set_vlans (v : list VLANConfig.t) (self : t) : t :=
  mk (dhcp self) v (dns_servers self) (firewall_rules self).
Definition set_dns_servers (v : pyval) (self : t) : t :=
  mk (dhcp self) (vlans self) v (firewall_rules self).
Definition set_firewall_rules (v : pyval) (self : t) : t :=
  mk (dhcp self) (vlans self) (dns_servers self) v.

Section Methods.
Context {lib : Ipaddress}.

(** The loop over [self.vlans]; [false] is its [return False]. *)
Fixpoint vlans_loop {S} (vl : list VLANConfig.t) : M S bool :=
  match vl with
  | [] => ret true
  | vlan :: rest =>
      ok <- VLANConfig.validate vlan;;
      if negb ok then ret false else vlans_loop rest
  end.

(** The loop over [self.dns_servers]. *)
Fixpoint dns_loop {S} (servers : list pyval) : M S unit :=
  match servers with
  | [] => ret tt
  | dns :: rest => ip_address dns;; dns_loop rest
  end.

(** [self.validate()]: the state is [self]. *)
Definition validate : M t bool :=
  try_except
    (d <- gets dhcp;;
     dhcp_invalid <- match d with
                     | Some dh => ok <- DHCPConfig.validate dh;; ret (negb ok)
                     | None => ret false
                     end;;
     if dhcp_invalid then ret false else
     vl <- gets vlans;;
     vlans_ok <- vlans_loop vl;;
     if negb vlans_ok then ret false else
     vl <- gets vlans;;
     let vlan_ids := map VLANConfig.id vl in
     distinct <- lift_res (py_set vlan_ids);;
     if negb (Nat.eqb (List.length vlan_ids) (List.length distinct)) then
       logger_error "Duplicate VLAN IDs detected" [];;
       ret false
     else
     dns <- gets dns_servers;;
     servers <- lift_res (py_iter dns);;
     dns_loop servers;;
     ret true)
    is_ValueError
    (fun e =>
       logger_error "Network configuration validation error: {}" [AExn e];;
       ret false).

(** The body of [from_json]: the state is the object [config]. *)
Definition from_json_body (config_data : pydict) : M t t :=
  match dict_get "dhcp" config_data with
  | Some v => d <- lift_res (DHCPConfig.new v);; modify (set_dhcp (Some d))
  | None => ret tt
  end;;
  match dict_get "vlans" config_data with
  | Some v =>
      items <- lift_res (py_iter v);;
      vl <- lift_res (map_res VLANConfig.new items);;
      modify (set_vlans vl)
  | None => ret tt
  end;;
  modify (set_dns_servers (dict_get_default "dns_servers" (PList []) config_data));;
  modify (set_firewall_rules (dict_get_default "firewall_rules" (PList []) config_data));;
  ok <- validate;;
  if negb ok then raise (mkExn ValueError "Invalid configuration data")
  else gets (fun config => config).

(** [NetworkConfig.from_json(config_data)]: the object returned or the
    exception raised, and the events of the call. *)
Definition from_json (config_data : pydict) : res t * list event :=
  match from_json_body config_data __init__ with
  | (r, _, evs) => (r, evs)
  end.
End Methods.
End NetworkConfig.

(** ** Devices *)

(** The devices that are neither a [Router] nor a [Switch] run code that
    is not part of the module: their [deploy_config] is any function of
    the device, the configuration and a state of its own, which returns a
    [bool] or raises, and may log. *)
Class Fleet : Type := {
  world : Type;
  custom_deploy_config :
    NetworkDevice -> NetworkConfig.t -> world -> res bool * world * list log_record
}.

Definition hostname_arg (device : NetworkDevice) : log_arg :=
  AVal (PStr (hostname device)).

Section Devices.
Context {fleet : Fleet}.

(** [Router.deploy_config] *)
Definition Router_deploy_config (self : NetworkDevice) (config : NetworkConfig.t)
  : M world bool :=
  logger_info "Deploying configuration to router {}" [hostname_arg self];;
  match NetworkConfig.dhcp config with
  | Some _ => logger_info "Configuring DHCP on {}" [hostname_arg self]
  | None => ret tt
  end;;
  (if py_truthy (NetworkConfig.firewall_rules config)
   then logger_info "Applying firewall rules on {}" [hostname_arg self]
   else ret tt);;
  ret true.

Fixpoint Switch_vlans_loop (self : NetworkDevice) (vl : list VLANConfig.t)
  : M world unit :=
  match vl with
  | [] => ret tt
  | vlan :: rest =>
      logger_info "Configuring VLAN {} on {}"
                  [AVal (VLANConfig.id vlan); hostname_arg self];;
      Switch_vlans_loop self rest
  end.

(** [Switch.deploy_config] *)
Definition Switch_deploy_config (self : NetworkDevice) (config : NetworkConfig.t)
  : M world bool :=
  logger_info "Deploying configuration to switch {}" [hostname_arg self];;
  Switch_vlans_loop self (NetworkConfig.vlans config);;
  ret true.

(** [device.deploy_config(config)], by the class of the device. *)
Definition deploy_config (device : NetworkDevice) (config : NetworkConfig.t)
  : M world bool :=
  match kind device with
  | Router => Router_deploy_config device config
  | Switch => Switch_deploy_config device config
  | Custom =>
      fun w =>
        match custom_deploy_config device config w with
        | (r, w', logs) => (r, w', map EvLog logs)
        end
  end.

(** One turn of the loop of [deploy_configuration]: the new value of
    [success]. *)
Definition deploy_step (config : NetworkConfig.t) (device : NetworkDevice)
           (success : bool) : M world bool :=
  try_except
    (emit (EvDeploy device);;
     ok <- deploy_config device config;;
     if negb ok then
       logger_error "Failed to deploy config to {}" [hostname_arg device];;
       ret false
     else ret success)
    is_Exception
    (fun e =>
       logger_error "Error deploying config to {}: {}" [hostname_arg device; AExn e];;
       ret false).

Fixpoint deploy_loop (config : NetworkConfig.t) (devices : list NetworkDevice)
         (success : bool) : M world bool :=
  match devices with
  | [] => ret success
  | device :: rest =>
      success' <- deploy_step config device success;;
      deploy_loop config rest success'
  end.

Definition deploy_configuration (config : NetworkConfig.t)
           (devices : list NetworkDevice) : M world bool :=
  deploy_loop config devices true.

(** What each device's [deploy_config] does when the devices are called
    one after the other, whatever the earlier ones did: the result or the
    exception of each call, in order. *)
Fixpoint device_outcomes (config : NetworkConfig.t) (devices : list NetworkDevice)
         (w : world) : list (res bool) :=
  match devices with
  | [] => []
  | device :: rest =>
      match deploy_config device config w with
      | (r, w', _) => r :: device_outcomes config rest w'
      end
  end.

(** The state of the devices after each was called once, in order. *)
Fixpoint world_after (config : NetworkConfig.t) (devices : list NetworkDevice)
         (w : world) : world :=
  match devices with
  | [] => w
  | device :: rest =>
      match deploy_config device config w with
      | (_, w', _) => world_after config rest w'
      end
  end.
End Devices.

(** A device succeeded: its [deploy_config] returned [True]. *)
Definition succeeded (r : res bool) : bool :=
  match r with Val true => true | _ => false end.

(** The devices whose [deploy_config] was called, in the order of the calls. *)
Fixpoint deploy_calls (evs : list event) : list NetworkDevice :=
  match evs with
  | [] => []
  | EvDeploy device :: rest => device :: deploy_calls rest
  | _ :: rest => deploy_calls rest
  end.

Definition is_log (ev : event) : bool :=
  match ev with EvLog _ => true | _ => false end.

(** ** The validity of a MAC address, in the words of the specification *)

Definition is_hex_digit (c : ascii) : bool :=
  match hex_digit_value c with Some _ => true | None => false end.

Definition two_hex_digits (group : string) : bool :=
  match group with
  | String a (String b EmptyString) => is_hex_digit a && is_hex_digit b
  | _ => false
  end.

(** Exactly six colon-separated groups, each of exactly two hexadecimal
    digits of either case. *)
Definition is_valid_mac_spec (s : string) : bool :=
  let groups := py_split ":"%char s in
  Nat.eqb (List.length groups) 6 && forallb two_hex_digits groups.

(** ** Objects that have the types of their annotations *)

Definition is_str (v : pyval) : bool :=
  match v with PStr _ => true | _ => false end.

Definition is_int (v : pyval) : bool :=
  match v with PInt _ => true | _ => false end.

(** [reservations: Dict[str, str]], [subnet: str], [gateway: str] *)
Definition wt_dhcp (d : DHCPConfig.t) : bool :=
  match DHCPConfig.reservations d with
  | PDict items => forallb (fun kv => is_str (snd kv)) items
  | _ => false
  end
  && is_str (DHCPConfig.subnet d) && is_str (DHCPConfig.gateway d).

(** [id: int], [name: str], [subnet: str] *)
Definition wt_vlan (v : VLANConfig.t) : bool :=
  is_int (VLANConfig.id v) && is_str (VLANConfig.name v)
  && is_str (VLANConfig.subnet v).

(** [dhcp: Optional[DHCPConfig]], [vlans: List[VLANConfig]],
    [dns_servers: List[str]]; the firewall rules are never looked into. *)
Definition wt_config (c : NetworkConfig.t) : bool :=
  match NetworkConfig.dhcp c with Some d => wt_dhcp d | None => true end
  && forallb wt_vlan (NetworkConfig.vlans c)
  && match NetworkConfig.dns_servers c with
     | PList l => forallb is_str l
     | _ => false
     end.

(** ** The object a mapping describes *)

(** The object whose fields are those of [config_data], before it is
    validated: the [dhcp] and [vlans] entries built into dataclass
    instances, the other two entries as they are, a missing entry at its
    default. An entry that does not fit its dataclass is a [TypeError]. *)
Definition config_of_data (config_data : pydict) : res NetworkConfig.t :=
  match
    match dict_get "dhcp" config_data with
    | Some v => match DHCPConfig.new v with
                | Val d => Val (Some d)
                | Exc e => Exc e
                end
    | None => Val None
    end
  with
  | Exc e => Exc e
  | Val d =>
      match
        match dict_get "vlans" config_data with
        | Some v => match py_iter v with
                    | Val items => map_res VLANConfig.new items
                    | Exc e => Exc e
                    end
        | None => Val []
        end
      with
      | Exc e => Exc e
      | Val vl =>
          Val (NetworkConfig.mk d vl
                 (dict_get_default "dns_servers" (PList []) config_data)
                 (dict_get_default "firewall_rules" (PList []) config_data))
      end
  end.

(** ** Checks run one after the other *)

(** What one check did: its verdict, or the exception it let out, and the
    events it emitted. *)
Definition check : Type := res bool * list event.

(** A method that does not use the state it runs on, run alone. *)
Definition run_alone {A} (m : M unit A) : res A * list event :=
  match m tt with (r, _, evs) => (r, evs) end.

(** The checks in order, up to and including the first that does not
    pass: the verdict of that one, and the events of those that ran. *)
Fixpoint fail_fast (checks : list check) : check :=
  match checks with
  | [] => (Val true, [])
  | (Val true, evs) :: rest =>
      match fail_fast rest with (r, evs') => (r, evs ++ evs') end
  | (stop, evs) :: _ => (stop, evs)
  end.

Section Checks.
Context {lib : Ipaddress}.

Definition dhcp_checks (d : option DHCPConfig.t) : list check :=
  match d with
  | Some dh => [run_alone (DHCPConfig.validate dh)]
  | None => []
  end.

Definition vlan_check (v : VLANConfig.t) : check :=
  run_alone (VLANConfig.validate v).

(** The number of ids against the number of distinct ids. *)
Definition duplicate_check (vl : list VLANConfig.t) : check :=
  let vlan_ids := map VLANConfig.id vl in
  match py_set vlan_ids with
  | Val distinct =>
      if Nat.eqb (List.length vlan_ids) (List.length distinct) then (Val true, [])
      else (Val false, [EvLog (mkLog ERROR "Duplicate VLAN IDs detected" [])])
  | Exc e => (Exc e, [])
  end.

(** One DNS server: the address is parsed; a [ValueError] is logged as a
    failure of the whole configuration. *)
Definition dns_check (dns : pyval) : check :=
  match ip_address_outcome dns with
  | None => (Val true, [EvIpAddress dns])
  | Some e =>
      if is_ValueError e then
        (Val false,
         [EvIpAddress dns;
          EvLog (mkLog ERROR "Network configuration validation error: {}" [AExn e])])
      else (Exc e, [EvIpAddress dns])
  end.

Definition dns_checks (dns_servers : pyval) : list check :=
  match py_iter dns_servers with
  | Val servers => map dns_check servers
  | Exc e => [(Exc e, [])]
  end.

(** DHCP, then every VLAN, then the duplicate ids, then every DNS server. *)
Definition validation_checks (c : NetworkConfig.t) : list check :=
  dhcp_checks (NetworkConfig.dhcp c)
  ++ map vlan_check (NetworkConfig.vlans c)
  ++ [duplicate_check (NetworkConfig.vlans c)]
  ++ dns_checks (NetworkConfig.dns_servers c).

(** [self.validate()] called twice in a row: both results. *)
Definition validate_twice : M NetworkConfig.t (bool * bool) :=
  first <- NetworkConfig.validate;;
  second <- NetworkConfig.validate;;
  ret (first, second).
End Checks.

(** ** A reference library

    An instance of [Ipaddress] to run examples on: dotted IPv4 addresses
    and IPv4 networks with a prefix length and no host bit set. It refuses
    everything else, which the real library does not. *)
Module Reference.

Definition is_digit (c : ascii) : bool :=
  ((48 <=? code c) && (code c <=? 57))%N.

Definition decimal_value (l : list ascii) : Z :=
  fold_left (fun acc c => 10 * acc + (Z.of_N (code c) - 48)) l 0.

Definition parse_decimal (max_digits : nat) (limit : Z) (s : string) : option Z :=
  let l := list_ascii_of_string s in
  if negb (Nat.leb 1 (List.length l) && Nat.leb (List.length l) max_digits) then None
  else if negb (forallb is_digit l) then None
  else if decimal_value l <=? limit then Some (decimal_value l) else None.

Definition parse_ipv4 (s : string) : option Z :=
  match map (parse_decimal 3 255) (py_split "."%char s) with
  | [Some a; Some b; Some c; Some d] => Some (((a * 256 + b) * 256 + c) * 256 + d)
  | _ => None
  end.

Definition ipv4_address_ok (s : string) : bool :=
  match parse_ipv4 s with Some _ => true | None => false end.

Definition ipv4_network_ok (s : string) : bool :=
  match py_split "/"%char s with
  | [a] => ipv4_address_ok a
  | [a; p] =>
      match parse_ipv4 a, parse_decimal 2 32 p with
      | Some address, Some prefix => address mod 2 ^ (32 - prefix) =? 0
      | _, _ => false
      end
  | _ => false
  end.

Definition refuse (ok : bool) (what : string) : option string :=
  if ok then None else Some what.

Definition ipv4_only : Ipaddress := {|
  ip_network_str s := refuse (ipv4_network_ok s) "does not appear to be an IPv4 or IPv6 network";
  ip_address_str s := refuse (ipv4_address_ok s) "does not appear to be an IPv4 or IPv6 address";
  ip_network_dyn _ := Some (mkExn ValueError "does not appear to be an IPv4 or IPv6 network");
  ip_address_dyn _ := Some (mkExn ValueError "does not appear to be an IPv4 or IPv6 address")
|}.

(** A fleet in which the device named "down" raises, the device named
    "refuses" returns [False], and any other custom device returns [True];
    the state counts the calls. *)
Definition test_fleet : Fleet := {|
  world := nat;
  custom_deploy_config device _ calls :=
    if String.eqb (hostname device) "down"
    then (Exc (mkExn OtherException "connection refused"), Datatypes.S calls, [])
    else if String.eqb (hostname device) "refuses"
    then (Val false, Datatypes.S calls, [])
    else (Val true, Datatypes.S calls, [])
|}.

(** A mapping that follows the schema, with the given DNS servers. *)
Definition example_data (dns : list string) : pydict :=
  [("dhcp",
    PDict [("reservations",
            PDict [("aa:bb:cc:dd:ee:ff", PStr "192.168.1.10");
                   ("AA:BB:CC:00:11:22", PStr "192.168.1.11")]);
           ("subnet", PStr "192.168.1.0/24");
           ("gateway", PStr "192.168.1.1")]);
   ("vlans",
    PList [PDict [("id", PInt 10); ("name", PStr "users"); ("subnet", PStr "10.0.10.0/24")];
           PDict [("id", PInt 20); ("name", PStr "voice"); ("subnet", PStr "10.0.20.0/24")]]);
   ("dns_servers", PList (map PStr dns));
   ("firewall_rules",
    PList [PDict [("action", PStr "allow"); ("port", PInt 443)]])].

(** The object [example_data dns] describes. *)
Definition example_config (dns : list string) : NetworkConfig.t :=
  NetworkConfig.mk
    (Some (DHCPConfig.mk
             (PDict [("aa:bb:cc:dd:ee:ff", PStr "192.168.1.10");
                     ("AA:BB:CC:00:11:22", PStr "192.168.1.11")])
             (PStr "192.168.1.0/24") (PStr "192.168.1.1")))
    [VLANConfig.mk (PInt 10) (PStr "users") (PStr "10.0.10.0/24");
     VLANConfig.mk (PInt 20) (PStr "voice") (PStr "10.0.20.0/24")]
    (PList (map PStr dns))
    (PList [PDict [("action", PStr "allow"); ("port", PInt 443)]]).

(** Two VLANs, each valid, with the same id. *)
Definition two_vlans_id_10 : NetworkConfig.t :=
  NetworkConfig.mk None
    [VLANConfig.mk (PInt 10) (PStr "users") (PStr "10.0.10.0/24");
     VLANConfig.mk (PInt 10) (PStr "voice") (PStr "10.0.20.0/24")]
    (PList [PStr "8.8.8.8"]) (PList []).

(** A DHCP block whose second reservation has no MAC address for a key. *)
Definition dhcp_with_bad_mac : DHCPConfig.t :=
  DHCPConfig.mk
    (PDict [("aa:bb:cc:dd:ee:ff", PStr "192.168.1.10");
            ("aa:bb:cc:dd:ee", PStr "192.168.1.11");
            ("aa:bb:cc:dd:ee:00", PStr "not an address")])
    (PStr "192.168.1.0/24") (PStr "192.168.1.1").

End Reference.

(** ** More readings of values and traces *)

(** The number of occurrences of a character in a string. *)
Fixpoint count_char (c : ascii) (s : string) : nat :=
  match s with
  | EmptyString => O
  | String c' rest =>
      if Ascii.eqb c' c then Datatypes.S (count_char c rest) else count_char c rest
  end.

(** A [bool], an [int] or a [float]. *)
Definition is_number (v : pyval) : bool :=
  match v with
  | PBool _ | PInt _ | PFloat _ => true
  | _ => false
  end.

Definition is_error_log (ev : event) : bool :=
  match ev with
  | EvLog r => match log_level r with ERROR => true | INFO => false end
  | _ => false
  end.

(** No record is logged. *)
Definition logs_nothing (evs : list event) : bool :=
  forallb (fun ev => negb (is_log ev)) evs.

(** One record is logged, at level ERROR, and it is the last event. *)
Definition reports_one_error (evs : list event) : Prop :=
  exists (before : list event) (r : log_record),
    evs = before ++ [EvLog r]
    /\ log_level r = ERROR
    /\ logs_nothing before = true.

(** A check reports its failure once, and logs nothing otherwise. *)
Definition reports (ck : check) : Prop :=
  match fst ck with
  | Val false => reports_one_error (snd ck)
  | _ => logs_nothing (snd ck) = true
  end.

(** ** fetch_config

    [requests] is not part of the module: a request returns a response or
    raises, [raise_for_status] returns or raises, and [json] returns the
    value the body denotes or raises. Which exceptions are instances of
    [requests.exceptions.RequestException] is for the library to say. *)
Class Requests : Type := {
  response : Type;
  requests_get : string -> Z -> res response;
  raise_for_status : response -> option exn;
  response_json : response -> res pyval;
  is_RequestException : exn -> bool
}.

Section Fetch.
Context {http : Requests} {S : Type}.

Definition fetch_config (api_url : string) : M S pyval :=
  try_except
    (r <- lift_res (requests_get api_url 10);;
     match raise_for_status r with
     | None => ret tt
     | Some e => raise e
     end;;
     lift_res (response_json r))
    is_RequestException
    (fun e =>
       logger_error "Failed to fetch configuration: {}" [AExn e];;
       raise e).
End Fetch.

(** What the three calls into [requests] come to, one after the other. *)
Definition request_outcome {http : Requests} (api_url : string) : res pyval :=
  match requests_get api_url 10 with
  | Exc e => Exc e
  | Val r =>
      match raise_for_status r with
      | Some e => Exc e
      | None => response_json r
      end
  end.

(** ** The script

    The block under [if __name__ == "__main__"], as a function of what
    opening and parsing [config.json] gives: any JSON value, or an
    exception. *)

(** [needle in text] for two strings. *)
Fixpoint is_substring (needle text : string) : bool :=
  String.prefix needle text
  || match text with
     | EmptyString => false
     | String _ rest => is_substring needle rest
     end.

(** [k in v] for a string [k]. *)
Definition py_contains (k : string) (v : pyval) : res bool :=
  match v with
  | PDict d => Val (dict_mem k d)
  | PList l =>
      Val (existsb (fun x => match x with PStr s => String.eqb s k | _ => false end) l)
  | PStr s => Val (is_substring k s)
  | _ => Exc (type_error "argument is not iterable")
  end.

Section Script.
Context {lib : Ipaddress} {fleet : Fleet}.

(** [NetworkConfig.from_json(v)] for any value: a value that is no mapping
    fails at the first subscript, or at [get]. *)
Definition from_json_any (v : pyval) : res NetworkConfig.t * list event :=
  match v with
  | PDict config_data => NetworkConfig.from_json config_data
  | _ =>
      match py_contains "dhcp" v with
      | Exc e => (Exc e, [])
      | Val true => (Exc (type_error "indices must be integers"), [])
      | Val false =>
          match py_contains "vlans" v with
          | Exc e => (Exc e, [])
          | Val true => (Exc (type_error "indices must be integers"), [])
          | Val false => (Exc (attribute_error "object has no attribute 'get'"), [])
          end
      end
  end.

Definition script_devices : list NetworkDevice :=
  [mkDevice Router "router1" "192.168.1.1"; mkDevice Switch "switch1" "192.168.1.2"].

Definition script (loaded : res pyval) : M world unit :=
  config_data <- lift_res loaded;;
  try_except
    (network_config <-
       (fun w => match from_json_any config_data with (r, evs) => (r, w, evs) end);;
     deploy_configuration network_config script_devices;;
     ret tt)
    is_Exception
    (fun e => logger_error "Configuration deployment failed: {}" [AExn e]).
End Script.

(** ** More examples *)
Module Samples.

Definition reservations : pydict :=
  [("aa:bb:cc:dd:ee:ff", PStr "192.168.1.10");
   ("AA:BB:CC:00:11:22", PStr "192.168.1.11")].

Definition dhcp : DHCPConfig.t :=
  DHCPConfig.mk (PDict reservations) (PStr "192.168.1.0/24") (PStr "192.168.1.1").

(** Reservations given as a list of MAC addresses, not as a mapping. *)
Definition dhcp_reservations_list : DHCPConfig.t :=
  DHCPConfig.mk (PList [PStr "aa:bb:cc:dd:ee:ff"])
                (PStr "192.168.1.0/24") (PStr "192.168.1.1").

(** An id given as a string. *)
Definition vlan_id_string : VLANConfig.t :=
  VLANConfig.mk (PStr "10") (PStr "users") (PStr "10.0.10.0/24").

(** [Reference.example_config ["8.8.8.8"; "1.1.1.1"]] with its VLANs and
    its DNS servers in the other order. *)
Definition example_config_reordered : NetworkConfig.t :=
  NetworkConfig.mk
    (Some dhcp)
    [VLANConfig.mk (PInt 20) (PStr "voice") (PStr "10.0.20.0/24");
     VLANConfig.mk (PInt 10) (PStr "users") (PStr "10.0.10.0/24")]
    (PList [PStr "1.1.1.1"; PStr "8.8.8.8"])
    (PList [PDict [("action", PStr "allow"); ("port", PInt 443)]]).

End Samples.

(** * Properties *)

(** ** The deployment loop *)

Lemma deploy_calls_app (a b : list event) :
  deploy_calls (a ++ b) = deploy_calls a ++ deploy_calls b.
Proof.
  induction a as [|ev a IH]; [reflexivity|].
  destruct ev; cbn; rewrite IH; reflexivity.
Qed.

Lemma deploy_calls_logs (evs : list event) :
  forallb is_log evs = true -> deploy_calls evs = [].
Proof.
  induction evs as [|ev evs IH]; [reflexivity|].
  destruct ev; cbn; try discriminate. exact IH.
Qed.

Lemma forallb_is_log_map (logs : list log_record) :
  forallb is_log (map EvLog logs) = true.
Proof. induction logs; [reflexivity | assumption]. Qed.

Section DeployProofs.
Context {fleet : Fleet}.

Lemma Switch_vlans_loop_run (self : NetworkDevice) (vl : list VLANConfig.t) (w : world) :
  exists evs,
    Switch_vlans_loop self vl w = (Val tt, w, evs) /\ forallb is_log evs = true.
Proof.
  induction vl as [|vlan rest [evs [IH Hlogs]]].
  - exists []. split; reflexivity.
  - eexists. cbn [Switch_vlans_loop]. unfold bind, logger_info, emit.
    rewrite IH. split; [reflexivity | exact Hlogs].
Qed.

(** A device's own [deploy_config] logs, and calls no other device. *)
Lemma deploy_config_logs_only (device : NetworkDevice) (config : NetworkConfig.t) (w : world) :
  forallb is_log (events_of (deploy_config device config w)) = true.
Proof.
  unfold deploy_config. destruct (kind device).
  - unfold Router_deploy_config, bind, logger_info, emit, ret, events_of.
    destruct (NetworkConfig.dhcp config), (py_truthy (NetworkConfig.firewall_rules config));
      reflexivity.
  - unfold Switch_deploy_config, bind, logger_info, emit, ret, events_of.
    destruct (Switch_vlans_loop_run device (NetworkConfig.vlans config) w) as [evs [-> Hlogs]].
    cbn. rewrite forallb_app, Hlogs. reflexivity.
  - destruct (custom_deploy_config device config w) as [[r w'] logs].
    apply forallb_is_log_map.
Qed.

Lemma deploy_step_run (config : NetworkConfig.t) (device : NetworkDevice)
      (success : bool) (w : world) :
  exists evs,
    deploy_step config device success w
    = (Val (succeeded (result_of (deploy_config device config w)) && success),
       state_of (deploy_config device config w), evs)
    /\ deploy_calls evs = [device].
Proof.
  pose proof (deploy_calls_logs _ (deploy_config_logs_only device config w)) as Hlogs.
  unfold deploy_step, try_except, bind, emit, logger_error, ret, result_of, state_of, events_of in *.
  destruct (deploy_config device config w) as [[r w'] evs]. cbn [fst snd] in *.
  destruct r as [[|]|e]; cbn; eexists; (split; [reflexivity|]);
    cbn; rewrite ?deploy_calls_app, Hlogs; reflexivity.
Qed.

Lemma deploy_loop_run (config : NetworkConfig.t) (devices : list NetworkDevice) :
  forall (success : bool) (w : world),
  exists evs,
    deploy_loop config devices success w
    = (Val (success && forallb succeeded (device_outcomes config devices w)),
       world_after config devices w, evs)
    /\ deploy_calls evs = devices.
Proof.
  induction devices as [|device rest IH]; intros success w.
  - exists []. cbn. rewrite andb_true_r. split; reflexivity.
  - destruct (deploy_step_run config device success w) as [evs1 [Hstep Hcalls1]].
    cbn [deploy_loop device_outcomes world_after]. unfold bind. rewrite Hstep.
    unfold result_of, state_of.
    destruct (deploy_config device config w) as [[r w'] evs0]. cbn [fst snd].
    destruct (IH (succeeded r && success) w') as [evs2 [Hloop Hcalls2]].
    rewrite Hloop. exists (evs1 ++ evs2). split.
    + f_equal. f_equal. f_equal. cbn [forallb].
      destruct (succeeded r), success; reflexivity.
    + rewrite deploy_calls_app, Hcalls1, Hcalls2. reflexivity.
Qed.

(** C2: [deploy_configuration] calls [deploy_config] on every device, in the
    order of the list and whatever the earlier devices did: a device that
    raises or returns [False] is logged as failed and the loop goes on. It
    never raises, and it returns [True] exactly when every call returned
    [True]. *)
Theorem deploy_configuration_attempts_every_device
        (config : NetworkConfig.t) (devices : list NetworkDevice) (w : world) :
  deploy_calls (events_of (deploy_configuration config devices w)) = devices
  /\ state_of (deploy_configuration config devices w) = world_after config devices w
  /\ result_of (deploy_configuration config devices w)
     = Val (forallb succeeded (device_outcomes config devices w))
  /\ (result_of (deploy_configuration config devices w) = Val true
      <-> Forall (fun r => r = Val true) (device_outcomes config devices w)).
Proof.
  destruct (deploy_loop_run config devices true w) as [evs [Hrun Hcalls]].
  unfold deploy_configuration. rewrite Hrun. cbn [events_of state_of result_of fst snd andb].
  repeat split; try assumption.
  - intros H. injection H as H. rewrite forallb_forall in H. apply Forall_forall.
    intros r Hr. specialize (H r Hr). destruct r as [[|]|]; try discriminate. reflexivity.
  - intros H. f_equal. apply forallb_forall. intros r Hr.
    rewrite Forall_forall in H. rewrite (H r Hr). reflexivity.
Qed.

(** C9: with no device to deploy to, [deploy_configuration] returns [True];
    it calls nothing, logs nothing and leaves the devices as they were. *)
Theorem deploy_configuration_no_device (config : NetworkConfig.t) (w : world) :
  deploy_configuration config [] w = (Val true, w, [])
  /\ deploy_calls (events_of (deploy_configuration config [] w)) = [].
Proof. split; reflexivity. Qed.
End DeployProofs.

(** ** Running a method step by step *)

Section MonadProofs.
Context {S A B : Type}.

Lemma try_bind_val (m : M S A) (k : A -> M S B) (catches : exn -> bool)
      (h : exn -> M S B) (s s1 : S) (a : A) (t1 : list event) :
  m s = (Val a, s1, t1) ->
  try_except (bind m k) catches h s
  = (result_of (try_except (k a) catches h s1),
     state_of (try_except (k a) catches h s1),
     t1 ++ events_of (try_except (k a) catches h s1)).
Proof.
  intros Hm. unfold try_except, bind, result_of, state_of, events_of. rewrite Hm.
  destruct (k a s1) as [[[b|e] s2] t2]; cbn; [reflexivity|].
  destruct (catches e); [|reflexivity].
  destruct (h e s2) as [[r s3] t3]. cbn. rewrite app_assoc. reflexivity.
Qed.

Lemma try_bind_exc (m : M S A) (k : A -> M S B) (catches : exn -> bool)
      (h : exn -> M S B) (s s1 : S) (e : exn) (t1 : list event) :
  m s = (Exc e, s1, t1) ->
  catches e = false ->
  try_except (bind m k) catches h s = (Exc e, s1, t1).
Proof.
  intros Hm He. unfold try_except, bind. rewrite Hm, He. reflexivity.
Qed.
End MonadProofs.

Lemma fail_fast_app (a b : list check) :
  fail_fast (a ++ b)
  = match fail_fast a with
    | (Val true, evs) => (fst (fail_fast b), evs ++ snd (fail_fast b))
    | stop => stop
    end.
Proof.
  induction a as [|[r evs] a IH]; cbn.
  - destruct (fail_fast b); reflexivity.
  - destruct r as [[|]|e]; [|reflexivity..].
    rewrite IH. destruct (fail_fast a) as [[[|]|e] evs']; [|reflexivity..].
    cbn. rewrite app_assoc. reflexivity.
Qed.

(** Every check passed exactly when the verdict is [True]. *)
Lemma fail_fast_true (checks : list check) :
  fst (fail_fast checks) = Val true <-> Forall (fun ck => fst ck = Val true) checks.
Proof.
  induction checks as [|[r evs] rest IH]; cbn.
  - split; [constructor | reflexivity].
  - destruct r as [[|]|e]; cbn.
    + destruct (fail_fast rest) as [r' evs']. cbn in *. rewrite IH. split.
      * intros H. constructor; [reflexivity | exact H].
      * intros H. inversion H. assumption.
    + split; [discriminate | intros H; inversion H; assumption].
    + split; [discriminate | intros H; inversion H; assumption].
Qed.

Section ValidationProofs.
Context {lib : Ipaddress}.

Lemma ip_network_run {S} (v : pyval) (s : S) :
  ip_network v s
  = (match ip_network_outcome v with None => Val tt | Some e => Exc e end,
     s, [EvIpNetwork v]).
Proof.
  unfold ip_network, bind, emit. destruct (ip_network_outcome v); reflexivity.
Qed.

Lemma ip_address_run {S} (v : pyval) (s : S) :
  ip_address v s
  = (match ip_address_outcome v with None => Val tt | Some e => Exc e end,
     s, [EvIpAddress v]).
Proof.
  unfold ip_address, bind, emit. destruct (ip_address_outcome v); reflexivity.
Qed.

(** *** The methods of the parts do not touch the state of the caller *)

Lemma reservations_loop_frame {S} (items : pydict) (s : S) :
  DHCPConfig.reservations_loop items s
  = (fst (run_alone (DHCPConfig.reservations_loop items)), s,
     snd (run_alone (DHCPConfig.reservations_loop items))).
Proof.
  unfold run_alone. induction items as [|[mac ip] rest IH]; [reflexivity|].
  cbn [DHCPConfig.reservations_loop].
  destruct (DHCPConfig._is_valid_mac mac); cbn [negb]; [|reflexivity].
  unfold bind. rewrite !ip_address_run.
  destruct (ip_address_outcome ip); [reflexivity|].
  rewrite IH. destruct (DHCPConfig.reservations_loop rest tt) as [[r u] evs].
  reflexivity.
Qed.

Lemma DHCP_validate_frame {S} (d : DHCPConfig.t) (s : S) :
  DHCPConfig.validate d s
  = (fst (run_alone (DHCPConfig.validate d)), s,
     snd (run_alone (DHCPConfig.validate d))).
Proof.
  unfold run_alone, DHCPConfig.validate, try_except, bind, lift_res, logger_error, emit, ret.
  rewrite !ip_network_run, !ip_address_run.
  destruct (ip_network_outcome (DHCPConfig.subnet d)) as [e|];
    [destruct (is_ValueError e); reflexivity|].
  destruct (ip_address_outcome (DHCPConfig.gateway d)) as [e|];
    [destruct (is_ValueError e); reflexivity|].
  destruct (py_items (DHCPConfig.reservations d)) as [items|e];
    [|destruct (is_ValueError e); reflexivity].
  rewrite (reservations_loop_frame items s). unfold run_alone.
  destruct (DHCPConfig.reservations_loop items tt) as [[[b|e] u] evs]; cbn;
    [reflexivity|].
  destruct (is_ValueError e); reflexivity.
Qed.

Lemma VLAN_validate_frame {S} (v : VLANConfig.t) (s : S) :
  VLANConfig.validate v s = (fst (vlan_check v), s, snd (vlan_check v)).
Proof.
  unfold vlan_check, run_alone, VLANConfig.validate, try_except, bind, lift_res,
    logger_error, emit, ret.
  destruct (py_between 1 (VLANConfig.id v) 4094) as [[|]|e]; cbn -[ip_network].
  - rewrite !ip_network_run.
    destruct (ip_network_outcome (VLANConfig.subnet v)) as [e|]; [|reflexivity].
    destruct (is_ValueError e); reflexivity.
  - reflexivity.
  - destruct (is_ValueError e); reflexivity.
Qed.

(** *** Neither part lets a [ValueError] out *)

Lemma try_except_no_escape {S A} (m : M S A) (h : exn -> M S A) (s : S) (e : exn) :
  (forall e' s', exists a, result_of (h e' s') = Val a) ->
  result_of (try_except m is_ValueError h s) = Exc e ->
  is_ValueError e = false.
Proof.
  intros Hh. unfold try_except, result_of in *.
  destruct (m s) as [[[a|e0] s1] t1]; cbn; [discriminate|].
  destruct (is_ValueError e0) eqn:He0.
  - destruct (Hh e0 s1) as [a Ha]. destruct (h e0 s1) as [[r s2] t2].
    cbn in *. rewrite Ha. discriminate.
  - cbn. intros [= <-]. exact He0.
Qed.

Lemma DHCP_validate_no_ValueError (d : DHCPConfig.t) (e : exn) :
  fst (run_alone (DHCPConfig.validate d)) = Exc e -> is_ValueError e = false.
Proof.
  intros H. unfold run_alone, DHCPConfig.validate in H.
  match type of H with
  | context [try_except ?m _ ?h tt] => apply (@try_except_no_escape unit bool m h tt e)
  end.
  - intros e' s'. exists false. reflexivity.
  - unfold result_of. destruct (try_except _ _ _ tt) as [[r u] evs]. exact H.
Qed.

Lemma VLAN_validate_no_ValueError (v : VLANConfig.t) (e : exn) :
  fst (vlan_check v) = Exc e -> is_ValueError e = false.
Proof.
  intros H. unfold vlan_check, run_alone, VLANConfig.validate in H.
  match type of H with
  | context [try_except ?m _ ?h tt] => apply (@try_except_no_escape unit bool m h tt e)
  end.
  - intros e' s'. exists false. reflexivity.
  - unfold result_of. destruct (try_except _ _ _ tt) as [[r u] evs]. exact H.
Qed.

(** *** The loops of [NetworkConfig.validate] *)

Lemma vlans_loop_run {S} (vl : list VLANConfig.t) (s : S) :
  NetworkConfig.vlans_loop vl s
  = (fst (fail_fast (map vlan_check vl)), s, snd (fail_fast (map vlan_check vl))).
Proof.
  induction vl as [|v rest IH]; [reflexivity|].
  cbn [NetworkConfig.vlans_loop map fail_fast]. unfold bind.
  rewrite VLAN_validate_frame.
  destruct (vlan_check v) as [[[|]|e] evs]; cbn [fst snd negb].
  - rewrite IH. destruct (fail_fast (map vlan_check rest)). reflexivity.
  - cbn. rewrite app_nil_r. reflexivity.
  - reflexivity.
Qed.

Lemma vlans_checks_no_ValueError (vl : list VLANConfig.t) (e : exn) :
  fst (fail_fast (map vlan_check vl)) = Exc e -> is_ValueError e = false.
Proof.
  induction vl as [|v rest IH]; cbn [map fail_fast]; [discriminate|].
  destruct (vlan_check v) as [[[|]|e0] evs] eqn:Hv.
  - destruct (fail_fast (map vlan_check rest)). exact IH.
  - discriminate.
  - cbn. intros [= <-]. apply (VLAN_validate_no_ValueError v). rewrite Hv. reflexivity.
Qed.

Lemma py_set_from_no_ValueError (l seen : list pyval) (e : exn) :
  py_set_from seen l = Exc e -> is_ValueError e = false.
Proof.
  revert seen. induction l as [|v rest IH]; intros seen; cbn; [discriminate|].
  destruct (py_hashable v); [apply IH|]. intros [= <-]. reflexivity.
Qed.

Lemma py_iter_no_ValueError (v : pyval) (e : exn) :
  py_iter v = Exc e -> is_ValueError e = false.
Proof. destruct v; cbn; try discriminate; intros [= <-]; reflexivity. Qed.

Lemma try_bind_caught {S A B} (m : M S A) (k : A -> M S B) (catches : exn -> bool)
      (h : exn -> M S B) (s s1 : S) (e : exn) (t1 : list event) :
  m s = (Exc e, s1, t1) ->
  catches e = true ->
  try_except (bind m k) catches h s
  = (result_of (h e s1), state_of (h e s1), t1 ++ events_of (h e s1)).
Proof.
  intros Hm He. unfold try_except, bind, result_of, state_of, events_of.
  rewrite Hm, He. destruct (h e s1) as [[r s2] t2]. reflexivity.
Qed.

Lemma try_except_ext {S A} (m m' : M S A) (catches : exn -> bool)
      (h : exn -> M S A) (s : S) :
  m s = m' s -> try_except m catches h s = try_except m' catches h s.
Proof. intros H. unfold try_except. rewrite H. reflexivity. Qed.

Lemma bind_assoc {S A B C} (m : M S A) (f : A -> M S B) (g : B -> M S C) (s : S) :
  bind (bind m f) g s = bind m (fun a => bind (f a) g) s.
Proof.
  unfold bind. destruct (m s) as [[[a|e] s1] t1]; [|reflexivity].
  destruct (f a s1) as [[[b|e] s2] t2]; [|reflexivity].
  destruct (g b s2) as [[r s3] t3]. rewrite app_assoc. reflexivity.
Qed.

Local Abbreviation validate_handler :=
  (fun e : exn =>
     logger_error "Network configuration validation error: {}" [AExn e];; ret false).

Lemma dns_tail_run {S} (servers : list pyval) (s : S) :
  try_except (NetworkConfig.dns_loop servers;; ret true) is_ValueError validate_handler s
  = (fst (fail_fast (map dns_check servers)), s,
     snd (fail_fast (map dns_check servers))).
Proof.
  induction servers as [|dns rest IH]; [reflexivity|].
  cbn [NetworkConfig.dns_loop map fail_fast].
  erewrite try_except_ext by apply bind_assoc.
  pose proof (ip_address_run dns s) as Hrun.
  pose proof (eq_refl (dns_check dns)) as Hck. unfold dns_check at 2 in Hck.
  destruct (ip_address_outcome dns) as [e|].
  - destruct (is_ValueError e) eqn:He; rewrite Hck.
    + erewrite try_bind_caught by eassumption. reflexivity.
    + erewrite try_bind_exc by eassumption. reflexivity.
  - erewrite try_bind_val by eassumption. rewrite IH, Hck.
    destruct (fail_fast (map dns_check rest)). reflexivity.
Qed.

(** *** [NetworkConfig.validate] is its checks in order *)

Lemma validate_after_dhcp (c : NetworkConfig.t) (tail : M NetworkConfig.t bool) :
  tail = (vl <- gets NetworkConfig.vlans;;
          vlans_ok <- NetworkConfig.vlans_loop vl;;
          if negb vlans_ok then ret false else
          vl <- gets NetworkConfig.vlans;;
          let vlan_ids := map VLANConfig.id vl in
          distinct <- lift_res (py_set vlan_ids);;
          if negb (Nat.eqb (List.length vlan_ids) (List.length distinct)) then
            logger_error "Duplicate VLAN IDs detected" [];;
            ret false
          else
          dns <- gets NetworkConfig.dns_servers;;
          servers <- lift_res (py_iter dns);;
          NetworkConfig.dns_loop servers;;
          ret true) ->
  try_except tail is_ValueError validate_handler c
  = (fst (fail_fast (map vlan_check (NetworkConfig.vlans c)
                     ++ [duplicate_check (NetworkConfig.vlans c)]
                     ++ dns_checks (NetworkConfig.dns_servers c))),
     c,
     snd (fail_fast (map vlan_check (NetworkConfig.vlans c)
                     ++ [duplicate_check (NetworkConfig.vlans c)]
                     ++ dns_checks (NetworkConfig.dns_servers c)))).
Proof.
  intros ->.
  erewrite try_bind_val by reflexivity. cbn beta.
  pose proof (vlans_loop_run (NetworkConfig.vlans c) c) as Hv.
  rewrite fail_fast_app.
  destruct (fail_fast (map vlan_check (NetworkConfig.vlans c))) as [[[|]|e] evs] eqn:Hff;
    cbn [fst snd] in Hv.
  - erewrite try_bind_val by exact Hv. cbn [negb].
    erewrite try_bind_val by reflexivity. cbn beta zeta.
    cbn [app fail_fast]. unfold duplicate_check.
    destruct (py_set (map VLANConfig.id (NetworkConfig.vlans c))) as [distinct|e] eqn:Hset.
    + erewrite try_bind_val by reflexivity.
      destruct (Nat.eqb _ _); cbn [negb]; [|reflexivity].
      erewrite try_bind_val by reflexivity. unfold dns_checks.
      destruct (py_iter (NetworkConfig.dns_servers c)) as [servers|e] eqn:Hiter.
      * erewrite try_bind_val by reflexivity.
        rewrite dns_tail_run.
        destruct (fail_fast (map dns_check servers)) as [r evs']. reflexivity.
      * erewrite try_bind_exc;
          [| reflexivity | apply (py_iter_no_ValueError _ Hiter) ].
        cbn. rewrite app_nil_r. reflexivity.
    + erewrite try_bind_exc;
        [| reflexivity | apply (py_set_from_no_ValueError _ _ Hset) ].
      cbn. rewrite app_nil_r. reflexivity.
  - erewrite try_bind_val by exact Hv. cbn. rewrite app_nil_r. reflexivity.
  - erewrite try_bind_exc; [reflexivity | exact Hv |].
    apply (vlans_checks_no_ValueError (NetworkConfig.vlans c)). rewrite Hff. reflexivity.
Qed.

Lemma validate_run (c : NetworkConfig.t) :
  NetworkConfig.validate c
  = (fst (fail_fast (validation_checks c)), c, snd (fail_fast (validation_checks c))).
Proof.
  pose proof (validate_after_dhcp c eq_refl) as Htail. cbv zeta in Htail.
  unfold NetworkConfig.validate, validation_checks.
  erewrite try_bind_val by reflexivity. cbv beta zeta.
  rewrite fail_fast_app. unfold dhcp_checks.
  destruct (NetworkConfig.dhcp c) as [dh|].
  - pose proof (DHCP_validate_frame dh c) as Hd.
    pose proof (DHCP_validate_no_ValueError dh) as Hno.
    cbn [fail_fast].
    destruct (run_alone (DHCPConfig.validate dh)) as [[ok|e] evs]; cbn [fst snd] in Hd.
    + erewrite try_bind_val by (unfold bind; rewrite Hd; reflexivity).
      destruct ok; cbn [negb].
      * rewrite Htail. cbn. rewrite !app_nil_r. reflexivity.
      * cbn. rewrite !app_nil_r. reflexivity.
    + erewrite try_bind_exc;
        [| unfold bind; rewrite Hd; reflexivity | apply Hno; reflexivity ].
      reflexivity.
  - erewrite try_bind_val by reflexivity. cbv beta iota.
    rewrite Htail. reflexivity.
Qed.

Lemma fail_fast_stop (before after : list check) (ck : check) :
  Forall (fun c => fst c = Val true) before ->
  fst ck <> Val true ->
  fail_fast (before ++ ck :: after) = (fst ck, List.concat (map snd before) ++ snd ck).
Proof.
  intros Hbefore Hck. induction Hbefore as [|[r evs] rest Hr _ IH]; cbn.
  - destruct ck as [[[|]|e] evs]; cbn in *; [congruence|reflexivity..].
  - cbn in Hr. subst r. rewrite IH. rewrite app_assoc. reflexivity.
Qed.

(** C4: [NetworkConfig.validate] is its checks run in a fixed order, up to
    the first that does not pass: the DHCP block when there is one, each
    VLAN in the order of the list, the count of ids against the count of
    distinct ids, each DNS server. The verdict is that of the first check
    that does not pass, and no event of a later check is emitted: none of
    them ran. *)
Theorem validate_runs_checks_in_order (c : NetworkConfig.t) :
  NetworkConfig.validate c
  = (fst (fail_fast (validation_checks c)), c, snd (fail_fast (validation_checks c)))
  /\ (forall (before after : list check) (ck : check),
        validation_checks c = before ++ ck :: after ->
        Forall (fun c => fst c = Val true) before ->
        fst ck <> Val true ->
        result_of (NetworkConfig.validate c) = fst ck
        /\ events_of (NetworkConfig.validate c) = List.concat (map snd before) ++ snd ck)
  /\ (result_of (NetworkConfig.validate c) = Val true
      <-> Forall (fun ck => fst ck = Val true) (validation_checks c)).
Proof.
  rewrite validate_run. unfold result_of, events_of. cbn [fst snd].
  split; [reflexivity|]. split.
  - intros before after ck Hsplit Hbefore Hck.
    rewrite Hsplit, (@fail_fast_stop before after ck Hbefore Hck). split; reflexivity.
  - apply fail_fast_true.
Qed.

(** C8: [validate] leaves every field of the configuration as it found
    it, so a second call starts from the same object and does what the
    first did: called twice in a row, it returns the same boolean twice. *)
Theorem validate_twice_same_result (c : NetworkConfig.t) :
  state_of (NetworkConfig.validate c) = c
  /\ NetworkConfig.dhcp (state_of (NetworkConfig.validate c)) = NetworkConfig.dhcp c
  /\ NetworkConfig.vlans (state_of (NetworkConfig.validate c)) = NetworkConfig.vlans c
  /\ NetworkConfig.dns_servers (state_of (NetworkConfig.validate c))
     = NetworkConfig.dns_servers c
  /\ NetworkConfig.firewall_rules (state_of (NetworkConfig.validate c))
     = NetworkConfig.firewall_rules c
  /\ NetworkConfig.validate (state_of (NetworkConfig.validate c))
     = NetworkConfig.validate c
  /\ (forall b : bool,
        result_of (NetworkConfig.validate c) = Val b ->
        result_of (validate_twice c) = Val (b, b)
        /\ state_of (validate_twice c) = c)
  /\ (forall first second : bool,
        result_of (validate_twice c) = Val (first, second) -> first = second).
Proof.
  assert (Hstate : state_of (NetworkConfig.validate c) = c)
    by (rewrite validate_run; reflexivity).
  rewrite Hstate. repeat (split; [reflexivity|]).
  unfold validate_twice, bind, ret, result_of, state_of. rewrite !validate_run.
  destruct (fail_fast (validation_checks c)) as [[b|e] evs]; cbn [fst snd].
  - split.
    + intros b' [= <-]. split; reflexivity.
    + intros first second [= <- <-]. reflexivity.
  - split; intros; discriminate.
Qed.

(** C10: a configuration with no DHCP block, no VLAN and no DNS server is
    valid whatever its firewall rules, and nothing is checked or logged;
    [from_json] of the empty mapping returns that configuration, with no
    firewall rule. *)
Theorem empty_configuration_is_valid (rules : pyval) :
  NetworkConfig.validate (NetworkConfig.mk None [] (PList []) rules)
  = (Val true, NetworkConfig.mk None [] (PList []) rules, [])
  /\ NetworkConfig.from_json []
     = (Val (NetworkConfig.mk None [] (PList []) (PList [])), [])
  /\ NetworkConfig.from_json [] = (Val NetworkConfig.__init__, []).
Proof. repeat split; reflexivity. Qed.

(** ** Construction from a mapping *)

(** [from_json] builds the object the mapping describes, validates it, and
    returns it when the verdict is [True]. *)
Lemma from_json_run (config_data : pydict) :
  NetworkConfig.from_json config_data
  = match config_of_data config_data with
    | Val c =>
        (match fst (fail_fast (validation_checks c)) with
         | Val true => Val c
         | Val false => Exc (mkExn ValueError "Invalid configuration data")
         | Exc e => Exc e
         end,
         snd (fail_fast (validation_checks c)))
    | Exc e => (Exc e, [])
    end.
Proof.
  unfold NetworkConfig.from_json, NetworkConfig.from_json_body, config_of_data.
  unfold bind, lift_res, modify, ret, raise, gets.
  destruct (dict_get "dhcp" config_data) as [v|];
    [destruct (DHCPConfig.new v) as [d|e]; [|reflexivity]|];
    (destruct (dict_get "vlans" config_data) as [w|];
     [destruct (py_iter w) as [items|e]; [|reflexivity];
      destruct (map_res VLANConfig.new items) as [vl|e]; [|reflexivity]|]);
    unfold NetworkConfig.set_firewall_rules, NetworkConfig.set_dns_servers,
      NetworkConfig.set_vlans, NetworkConfig.set_dhcp, NetworkConfig.__init__;
    cbn [NetworkConfig.dhcp NetworkConfig.vlans NetworkConfig.dns_servers
         NetworkConfig.firewall_rules];
    rewrite validate_run;
    match goal with
    | |- context [fail_fast (validation_checks ?c)] =>
        destruct (fail_fast (validation_checks c)) as [[[|]|e] evs]
    end; cbn; rewrite ?app_nil_r; reflexivity.
Qed.

Lemma dns_checks_reject (servers : list pyval) (bad : pyval) :
  In bad servers ->
  ip_address_outcome bad <> None ->
  ~ Forall (fun ck : check => fst ck = Val true) (dns_checks (PList servers)).
Proof.
  intros Hin Hbad Hall. unfold dns_checks in Hall. cbn [py_iter] in Hall.
  rewrite Forall_forall in Hall.
  specialize (Hall (dns_check bad) (in_map dns_check servers bad Hin)).
  unfold dns_check in Hall. destruct (ip_address_outcome bad) as [e|]; [|congruence].
  destruct (is_ValueError e); discriminate.
Qed.

(** C3: whatever the mapping, [from_json] returns an object that
    [validate] accepts, and accepts again unchanged, or it raises. It
    returns the object the mapping describes when that object is valid;
    and it raises when one of the DNS servers of the mapping is a string
    the library refuses, such as "999.999.999.999". *)
Theorem from_json_returns_only_valid (config_data : pydict) :
  (forall (c : NetworkConfig.t) (evs : list event),
      NetworkConfig.from_json config_data = (Val c, evs) ->
      result_of (NetworkConfig.validate c) = Val true
      /\ state_of (NetworkConfig.validate c) = c)
  /\ (forall c : NetworkConfig.t,
        config_of_data config_data = Val c ->
        result_of (NetworkConfig.validate c) = Val true ->
        fst (NetworkConfig.from_json config_data) = Val c)
  /\ (forall (servers : list pyval) (bad msg : string),
        dict_get "dns_servers" config_data = Some (PList servers) ->
        In (PStr bad) servers ->
        ip_address_str bad = Some msg ->
        exists e, fst (NetworkConfig.from_json config_data) = Exc e).
Proof.
  rewrite from_json_run. split; [|split].
  - intros c evs H. rewrite validate_run. unfold result_of, state_of. cbn [fst snd].
    destruct (config_of_data config_data) as [c'|e]; [|discriminate].
    destruct (fail_fast (validation_checks c')) as [[[|]|e] evs'] eqn:Hff;
      cbn [fst snd] in H; try discriminate.
    injection H as <- _. rewrite Hff. split; reflexivity.
  - intros c -> Hvalid. rewrite validate_run in Hvalid. unfold result_of in Hvalid.
    cbn [fst snd] in *. rewrite Hvalid. reflexivity.
  - intros servers bad msg Hdns Hin Hbad.
    destruct (config_of_data config_data) as [c|e] eqn:Hc; [|exists e; reflexivity].
    assert (Hservers : NetworkConfig.dns_servers c = PList servers).
    { unfold config_of_data in Hc.
      destruct (match dict_get "dhcp" config_data with Some _ => _ | None => _ end);
        [|discriminate].
      destruct (match dict_get "vlans" config_data with Some _ => _ | None => _ end);
        [|discriminate].
      injection Hc as <-. cbn. unfold dict_get_default. rewrite Hdns. reflexivity. }
    destruct (fst (fail_fast (validation_checks c))) as [[|]|e] eqn:Hff; cbn [fst].
    + exfalso. apply fail_fast_true in Hff. unfold validation_checks in Hff.
      rewrite !Forall_app in Hff. destruct Hff as (_ & _ & _ & Hdnsok).
      rewrite Hservers in Hdnsok. revert Hdnsok.
      apply (@dns_checks_reject servers (PStr bad) Hin).
      cbn. rewrite Hbad. discriminate.
    + eexists. reflexivity.
    + eexists. reflexivity.
Qed.

(** ** VLANConfig.validate *)

Lemma VLAN_validate_int {S} (z : Z) (name subnet : pyval) (s : S) :
  VLANConfig.validate (VLANConfig.mk (PInt z) name subnet) s
  = if (1 <=? z) && (z <=? 4094) then
      match ip_network_outcome subnet with
      | None => (Val true, s, [EvIpNetwork subnet])
      | Some e =>
          if is_ValueError e then
            (Val false, s,
             [EvIpNetwork subnet;
              EvLog (mkLog ERROR "VLAN validation error: {}" [AExn e])])
          else (Exc e, s, [EvIpNetwork subnet])
      end
    else (Val false, s, [EvLog (mkLog ERROR "Invalid VLAN ID: {}" [AVal (PInt z)])]).
Proof.
  unfold VLANConfig.validate, try_except, bind, lift_res, logger_error, emit, ret.
  cbn [VLANConfig.id VLANConfig.subnet py_between py_int_le py_le_int].
  destruct (1 <=? z); cbn [andb]; [|reflexivity].
  destruct (z <=? 4094); cbn [negb]; [|reflexivity].
  rewrite ip_network_run.
  destruct (ip_network_outcome subnet) as [e|]; [|reflexivity].
  destruct (is_ValueError e); reflexivity.
Qed.

(** C6: a VLAN whose id is 0 or 4095 is invalid whatever its subnet, a
    VLAN whose id is 1 or 4094 is valid when the library accepts its
    subnet, and in general a VLAN with an integer id is valid exactly when
    the id is in 1..4094 and the library accepts the subnet; an id outside
    the range is refused before the subnet is looked at. *)
Theorem vlan_id_range (name subnet : pyval) :
  result_of (VLANConfig.validate (VLANConfig.mk (PInt 0) name subnet) tt) = Val false
  /\ result_of (VLANConfig.validate (VLANConfig.mk (PInt 4095) name subnet) tt) = Val false
  /\ (ip_network_outcome subnet = None ->
      result_of (VLANConfig.validate (VLANConfig.mk (PInt 1) name subnet) tt) = Val true
      /\ result_of (VLANConfig.validate (VLANConfig.mk (PInt 4094) name subnet) tt)
         = Val true)
  /\ (forall z : Z,
        result_of (VLANConfig.validate (VLANConfig.mk (PInt z) name subnet) tt) = Val true
        <-> 1 <= z <= 4094 /\ ip_network_outcome subnet = None)
  /\ (forall z : Z,
        ~ 1 <= z <= 4094 ->
        VLANConfig.validate (VLANConfig.mk (PInt z) name subnet) tt
        = (Val false, tt,
           [EvLog (mkLog ERROR "Invalid VLAN ID: {}" [AVal (PInt z)])])).
Proof.
  assert (Hrange : forall z, (1 <=? z) && (z <=? 4094) = true <-> 1 <= z <= 4094).
  { intros z. rewrite andb_true_iff, !Z.leb_le. reflexivity. }
  rewrite !VLAN_validate_int.
  split; [reflexivity|]. split; [reflexivity|]. split; [|split].
  - intros H. cbn. rewrite H. split; reflexivity.
  - intros z. rewrite VLAN_validate_int, <- Hrange. split.
    + intros H. destruct ((1 <=? z) && (z <=? 4094)); [|discriminate].
      split; [reflexivity|].
      destruct (ip_network_outcome subnet) as [e|]; [|reflexivity].
      destruct (is_ValueError e); discriminate.
    + intros [-> ->]. reflexivity.
  - intros z Hz. rewrite VLAN_validate_int.
    destruct ((1 <=? z) && (z <=? 4094)) eqn:E; [|reflexivity].
    apply Hrange in E. contradiction.
Qed.

(** ** DHCPConfig.validate *)

Local Abbreviation invalid_mac_log mac :=
  (EvLog (mkLog ERROR "Invalid MAC address format: {}" [AVal (PStr mac)])).

Lemma reservations_loop_cons (mac : string) (ip : pyval) (rest : pydict) :
  run_alone (DHCPConfig.reservations_loop ((mac, ip) :: rest))
  = if DHCPConfig._is_valid_mac mac then
      match ip_address_outcome ip with
      | None =>
          (fst (run_alone (DHCPConfig.reservations_loop rest)),
           EvIpAddress ip :: snd (run_alone (DHCPConfig.reservations_loop rest)))
      | Some e => (Exc e, [EvIpAddress ip])
      end
    else (Val false, [invalid_mac_log mac]).
Proof.
  unfold run_alone. cbn [DHCPConfig.reservations_loop].
  destruct (DHCPConfig._is_valid_mac mac); cbn [negb]; [|reflexivity].
  unfold bind. rewrite ip_address_run.
  destruct (ip_address_outcome ip); [reflexivity|].
  destruct (DHCPConfig.reservations_loop rest tt) as [[r u] evs]. reflexivity.
Qed.

(** With string addresses, the loop returns or raises [ValueError]. *)
Lemma reservations_loop_typed (items : pydict) (e : exn) :
  forallb (fun kv => is_str (snd kv)) items = true ->
  fst (run_alone (DHCPConfig.reservations_loop items)) = Exc e ->
  is_ValueError e = true.
Proof.
  induction items as [|[mac ip] rest IH]; [discriminate|].
  cbn [forallb snd]. rewrite andb_true_iff. intros [Hip Hrest].
  rewrite reservations_loop_cons.
  destruct (DHCPConfig._is_valid_mac mac); [|discriminate].
  destruct ip; try discriminate. cbn [ip_address_outcome].
  destruct (ip_address_str s); cbn.
  - intros [= <-]. reflexivity.
  - apply IH, Hrest.
Qed.

(** The loop never returns [True] past an invalid MAC address. *)
Lemma reservations_loop_invalid_mac (items : pydict) (mac : string) (ip : pyval) :
  In (mac, ip) items ->
  DHCPConfig._is_valid_mac mac = false ->
  fst (run_alone (DHCPConfig.reservations_loop items)) <> Val true.
Proof.
  intros Hin Hmac. induction items as [|[mac' ip'] rest IH]; [contradiction|].
  rewrite reservations_loop_cons.
  destruct Hin as [[= -> ->]|Hin].
  - rewrite Hmac. discriminate.
  - destruct (DHCPConfig._is_valid_mac mac'); [|discriminate].
    destruct (ip_address_outcome ip'); [discriminate|]. apply IH, Hin.
Qed.

(** The loop stops at the first invalid MAC address. *)
Lemma reservations_loop_stops (before after : pydict) (mac : string) (ip : pyval) :
  (forall m i, In (m, i) before ->
               DHCPConfig._is_valid_mac m = true /\ ip_address_outcome i = None) ->
  DHCPConfig._is_valid_mac mac = false ->
  run_alone (DHCPConfig.reservations_loop (before ++ (mac, ip) :: after))
  = (Val false, map (fun kv => EvIpAddress (snd kv)) before ++ [invalid_mac_log mac]).
Proof.
  intros Hbefore Hmac. induction before as [|[m i] rest IH]; cbn [app map].
  - rewrite reservations_loop_cons, Hmac. reflexivity.
  - rewrite reservations_loop_cons.
    destruct (Hbefore m i (or_introl eq_refl)) as [-> ->].
    rewrite IH; [reflexivity|]. intros m' i' Hin. apply Hbefore. right. exact Hin.
Qed.

Lemma DHCP_validate_typed (items : pydict) (subnet gateway : string) :
  forallb (fun kv => is_str (snd kv)) items = true ->
  exists b : bool,
    fst (run_alone (DHCPConfig.validate
                      (DHCPConfig.mk (PDict items) (PStr subnet) (PStr gateway))))
    = Val b
    /\ (fst (run_alone (DHCPConfig.reservations_loop items)) <> Val true -> b = false).
Proof.
  intros Htyped.
  pose proof (fun e => @reservations_loop_typed items e Htyped) as Hloop.
  unfold run_alone in *.
  unfold DHCPConfig.validate, try_except, bind, lift_res, logger_error, emit, ret.
  rewrite ip_network_run, ip_address_run.
  cbn [DHCPConfig.subnet DHCPConfig.gateway DHCPConfig.reservations py_items
       ip_network_outcome ip_address_outcome].
  destruct (ip_network_str subnet); cbn; [exists false; split; reflexivity|].
  destruct (ip_address_str gateway); cbn; [exists false; split; reflexivity|].
  destruct (DHCPConfig.reservations_loop items tt) as [[[b|e] u] evs]; cbn in *.
  - exists b. split; [reflexivity|]. destruct b; [congruence | reflexivity].
  - rewrite (Hloop e eq_refl). cbn. exists false. split; reflexivity.
Qed.

Lemma wt_dhcp_inv (d : DHCPConfig.t) :
  wt_dhcp d = true ->
  exists items subnet gateway,
    d = DHCPConfig.mk (PDict items) (PStr subnet) (PStr gateway)
    /\ forallb (fun kv => is_str (snd kv)) items = true.
Proof.
  destruct d as [r s g]. unfold wt_dhcp. cbn.
  rewrite !andb_true_iff. intros [[Hr Hs] Hg].
  destruct r; try discriminate. destruct s; try discriminate.
  destruct g; try discriminate. eauto.
Qed.

(** X24: a DHCP block whose fields have their declared types always gets a
    boolean from [validate]; the boolean is [False] as soon as one
    reservation has a key that [_is_valid_mac] refuses; and when everything
    before that reservation is in order, the log record for that key is
    the last thing that happens: no later reservation is looked at.
    Whatever the types of the fields, no [ValueError] gets out. *)
Theorem dhcp_validate_never_raises_ValueError (d : DHCPConfig.t) :
  (wt_dhcp d = true ->
   (exists (b : bool) (evs : list event),
       forall (S : Type) (s : S), DHCPConfig.validate d s = (Val b, s, evs))
   /\ (forall (items : pydict) (mac : string) (ip : pyval),
         DHCPConfig.reservations d = PDict items ->
         In (mac, ip) items ->
         DHCPConfig._is_valid_mac mac = false ->
         forall (S : Type) (s : S), result_of (DHCPConfig.validate d s) = Val false))
  /\ (forall (before after : pydict) (mac : string) (ip : pyval),
        DHCPConfig.reservations d = PDict (before ++ (mac, ip) :: after) ->
        ip_network_outcome (DHCPConfig.subnet d) = None ->
        ip_address_outcome (DHCPConfig.gateway d) = None ->
        (forall m i, In (m, i) before ->
                     DHCPConfig._is_valid_mac m = true /\ ip_address_outcome i = None) ->
        DHCPConfig._is_valid_mac mac = false ->
        forall (S : Type) (s : S),
          DHCPConfig.validate d s
          = (Val false, s,
             EvIpNetwork (DHCPConfig.subnet d) :: EvIpAddress (DHCPConfig.gateway d)
             :: map (fun kv => EvIpAddress (snd kv)) before ++ [invalid_mac_log mac]))
  /\ (forall (S : Type) (s : S) (e : exn),
        result_of (DHCPConfig.validate d s) = Exc e -> is_ValueError e = false).
Proof.
  split; [|split].
  - intros Hwt. destruct (wt_dhcp_inv d Hwt) as (items & subnet & gateway & -> & Htyped).
    destruct (@DHCP_validate_typed items subnet gateway Htyped) as [b [Hb Hfalse]].
    split.
    + exists b. eexists. intros S s. rewrite DHCP_validate_frame, Hb. reflexivity.
    + intros items' mac ip [= <-] Hin Hmac S s.
      rewrite DHCP_validate_frame, Hb. unfold result_of. cbn [fst].
      rewrite Hfalse; [reflexivity|].
      apply (@reservations_loop_invalid_mac items mac ip Hin Hmac).
  - intros before after mac ip Hres Hsubnet Hgateway Hbefore Hmac S s.
    rewrite DHCP_validate_frame. unfold run_alone at 1 2.
    unfold DHCPConfig.validate, try_except, bind, lift_res, logger_error, emit, ret.
    rewrite ip_network_run, ip_address_run, Hsubnet, Hgateway, Hres. cbn [py_items].
    pose proof (@reservations_loop_stops before after mac ip Hbefore Hmac) as Hloop.
    unfold run_alone in Hloop.
    destruct (DHCPConfig.reservations_loop _ tt) as [[r u] evs].
    injection Hloop as -> ->. reflexivity.
  - intros S s e. rewrite DHCP_validate_frame. unfold result_of. cbn [fst].
    apply DHCP_validate_no_ValueError.
Qed.

(** ** Duplicate VLAN ids *)

Lemma py_same_key_int (a b : Z) : py_same_key (PInt a) (PInt b) = (a =? b).
Proof.
  unfold py_same_key. cbn [py_number]. destruct (Z.eqb_spec a b) as [->|Hne].
  - apply Qeq_bool_iff. reflexivity.
  - destruct (Qeq_bool (inject_Z a) (inject_Z b)) eqn:E; [|reflexivity].
    apply Qeq_bool_iff in E. apply (proj1 (inject_Z_injective a b)) in E.
    contradiction.
Qed.

Lemma existsb_same_key_int (z : Z) (seen : list Z) :
  existsb (py_same_key (PInt z)) (map PInt seen) = true <-> In z seen.
Proof.
  induction seen as [|a seen IH]; cbn [existsb map In];
    [split; [discriminate | intros []]|].
  rewrite orb_true_iff, py_same_key_int, Z.eqb_eq, IH. intuition congruence.
Qed.

(** The set of a list of integers: its elements, each once. *)
Lemma py_set_from_ints (zs : list Z) :
  forall seen : list Z,
  exists d : list Z,
    py_set_from (map PInt seen) (map PInt zs) = Val (map PInt d)
    /\ (NoDup seen -> NoDup d)
    /\ (forall z, In z d <-> In z seen \/ In z zs).
Proof.
  induction zs as [|z zs IH]; intros seen.
  - exists seen. cbn. intuition.
  - cbn [map py_set_from py_hashable].
    destruct (existsb (py_same_key (PInt z)) (map PInt seen)) eqn:Hseen.
    + apply existsb_same_key_int in Hseen.
      destruct (IH seen) as (d & Hd & Hnodup & Hin). exists d.
      split; [exact Hd|]. split; [exact Hnodup|].
      intros z'. rewrite Hin. cbn. intuition congruence.
    + assert (Hnew : ~ In z seen).
      { intros H. apply existsb_same_key_int in H. congruence. }
      destruct (IH (seen ++ [z])) as (d & Hd & Hnodup & Hin). exists d.
      rewrite map_app in Hd. split; [exact Hd|]. split.
      * intros Hs. apply Hnodup. apply NoDup_app; [exact Hs | repeat constructor; intros [] |].
        intros a Ha [<-|[]]. contradiction.
      * intros z'. rewrite Hin, in_app_iff. cbn. intuition.
Qed.

Lemma py_set_ints_shorter (zs : list Z) :
  ~ NoDup zs ->
  exists distinct : list pyval,
    py_set (map PInt zs) = Val distinct
    /\ Nat.eqb (List.length (map PInt zs)) (List.length distinct) = false.
Proof.
  intros Hdup. destruct (py_set_from_ints zs []) as (d & Hd & Hnodup & Hin).
  exists (map PInt d). split; [exact Hd|].
  rewrite !length_map. apply Nat.eqb_neq. intros Hlen.
  apply Hdup. apply (@NoDup_incl_NoDup Z d zs).
  - apply Hnodup. constructor.
  - rewrite Hlen. apply Nat.le_refl.
  - intros z Hz. apply Hin in Hz. destruct Hz as [[]|Hz]. exact Hz.
Qed.

Lemma wt_vlans_ids (vl : list VLANConfig.t) :
  forallb wt_vlan vl = true ->
  exists zs : list Z, map VLANConfig.id vl = map PInt zs.
Proof.
  induction vl as [|v vl IH]; cbn [forallb map].
  - exists []. reflexivity.
  - rewrite andb_true_iff. intros [Hv Hvl]. destruct (IH Hvl) as [zs Hzs].
    unfold wt_vlan in Hv. destruct (VLANConfig.id v) as [| |z| | | |] eqn:Hid;
      try discriminate.
    exists (z :: zs). cbn. rewrite Hzs. reflexivity.
Qed.

Lemma NoDup_map_PInt (zs : list Z) : NoDup zs -> NoDup (map PInt zs).
Proof.
  induction 1 as [|z zs Hz _ IH]; cbn; constructor; [|exact IH].
  rewrite in_map_iff. intros (z' & [= ->] & Hin). contradiction.
Qed.

(** C5: a configuration whose fields have their declared types, whose
    VLANs are each valid, and in which two VLANs share an id, is invalid:
    [validate] returns [False]. *)
Theorem duplicate_vlan_ids_invalid (c : NetworkConfig.t) :
  wt_config c = true ->
  (forall v, In v (NetworkConfig.vlans c) ->
             result_of (VLANConfig.validate v tt) = Val true) ->
  ~ NoDup (map VLANConfig.id (NetworkConfig.vlans c)) ->
  result_of (NetworkConfig.validate c) = Val false.
Proof.
  intros Hwt Hvalid Hdup. unfold wt_config in Hwt.
  rewrite !andb_true_iff in Hwt. destruct Hwt as [[Hdhcp Hvlans] _].
  assert (Hrest :
            fst (fail_fast (map vlan_check (NetworkConfig.vlans c)
                            ++ [duplicate_check (NetworkConfig.vlans c)]
                            ++ dns_checks (NetworkConfig.dns_servers c)))
            = Val false).
  { rewrite fail_fast_app.
    assert (Hall : fst (fail_fast (map vlan_check (NetworkConfig.vlans c))) = Val true).
    { apply fail_fast_true, Forall_map, Forall_forall. intros v Hv.
      specialize (Hvalid v Hv). rewrite VLAN_validate_frame in Hvalid. exact Hvalid. }
    destruct (fail_fast (map vlan_check (NetworkConfig.vlans c))) as [r evs].
    cbn [fst] in Hall. subst r. cbn [fst snd app fail_fast]. unfold duplicate_check.
    destruct (wt_vlans_ids _ Hvlans) as [zs Hzs]. rewrite Hzs in *.
    destruct (@py_set_ints_shorter zs) as (distinct & -> & ->).
    - intros Hnodup. apply Hdup, NoDup_map_PInt, Hnodup.
    - reflexivity. }
  rewrite validate_run. unfold result_of, validation_checks. cbn [fst].
  rewrite fail_fast_app. unfold dhcp_checks.
  destruct (NetworkConfig.dhcp c) as [d|]; [|rewrite Hrest; reflexivity].
  destruct (wt_dhcp_inv d Hdhcp) as (items & subnet & gateway & -> & Htyped).
  destruct (@DHCP_validate_typed items subnet gateway Htyped) as [b [Hb _]].
  cbn [fail_fast]. destruct (run_alone _) as [r evs]. cbn [fst] in Hb. subst r.
  destruct b; [rewrite Hrest|]; reflexivity.
Qed.
End ValidationProofs.

(** ** DHCPConfig._is_valid_mac *)

Lemma hex_digit_facts (c : ascii) :
  is_hex_digit c = true ->
  transform_char c = c
  /\ Py_ISSPACE c = false
  /\ Ascii.eqb c "+"%char = false
  /\ Ascii.eqb c "-"%char = false
  /\ Ascii.eqb c "_"%char = false
  /\ Ascii.eqb c "x"%char = false
  /\ Ascii.eqb c "X"%char = false
  /\ Ascii.eqb c ":"%char = false.
Proof.
  destruct c as [[] [] [] [] [] [] [] []]; vm_compute; intros H;
    try discriminate H; repeat split.
Qed.

Lemma scan_hex_digits (l : list ascii) :
  Forall (fun c => is_hex_digit c = true) l ->
  forall (digits : nat) (acc : Z),
  exists v, scan_hex false digits acc l = Some ((digits + List.length l)%nat, v, []).
Proof.
  induction 1 as [|c l Hc _ IH]; intros digits acc; cbn [scan_hex List.length].
  - exists acc. rewrite Nat.add_0_r. reflexivity.
  - destruct (hex_digit_facts c Hc) as (_ & _ & _ & _ & -> & _).
    unfold is_hex_digit in Hc. destruct (hex_digit_value c) as [d|]; [|discriminate].
    destruct (IH (Datatypes.S digits) (16 * acc + d)) as [v Hv]. exists v.
    rewrite Hv, Nat.add_succ_r. reflexivity.
Qed.

(** A string of hexadecimal digits, at least one, parses in base 16. *)
Lemma py_int16_hex_digits (s : string) :
  s <> EmptyString ->
  Forall (fun c => is_hex_digit c = true) (list_ascii_of_string s) ->
  exists v, py_int16 s = Some v.
Proof.
  intros Hne Hall. unfold py_int16.
  assert (Hid : map transform_char (list_ascii_of_string s) = list_ascii_of_string s).
  { induction Hall as [|c l Hc _ IH]; [reflexivity|]. cbn.
    destruct (hex_digit_facts c Hc) as (-> & _). rewrite IH. reflexivity. }
  rewrite Hid. destruct s as [|c s]; [contradiction|]. cbn [list_ascii_of_string] in *.
  inversion Hall as [|? ? Hc Hrest]; subst.
  destruct (hex_digit_facts c Hc) as (_ & Hsp & Hplus & Hminus & Hus & _).
  cbn [skip_spaces]. rewrite Hsp. unfold strip_sign. rewrite Hplus, Hminus.
  assert (Hprefix : strip_prefix16 (c :: list_ascii_of_string s)
                    = c :: list_ascii_of_string s).
  { unfold strip_prefix16. destruct (list_ascii_of_string s) as [|x rest]; [reflexivity|].
    inversion Hrest as [|? ? Hx _]; subst.
    destruct (hex_digit_facts x Hx) as (_ & _ & _ & _ & _ & -> & -> & _).
    rewrite andb_false_r. reflexivity. }
  rewrite Hprefix, Hus.
  destruct (scan_hex_digits Hall 0 0) as [v Hv]. rewrite Hv. cbn. exists v. reflexivity.
Qed.

Lemma py_split_not_nil (sep : ascii) (s : string) : py_split sep s <> [].
Proof.
  destruct s as [|c s]; cbn; [discriminate|].
  destruct (Ascii.eqb c sep); [discriminate|].
  destruct (py_split sep s); discriminate.
Qed.

(** Removing the separator leaves the groups, one after the other. *)
Lemma py_remove_split (sep : ascii) (s : string) :
  py_remove sep s = join (py_split sep s).
Proof.
  induction s as [|c s IH]; [reflexivity|]. cbn.
  destruct (Ascii.eqb c sep); [exact IH|]. rewrite IH.
  destruct (py_split sep s) as [|g gs] eqn:E; [|reflexivity].
  exfalso. exact (py_split_not_nil sep s E).
Qed.

Lemma two_hex_digits_inv (g : string) :
  two_hex_digits g = true ->
  exists a b, g = String a (String b EmptyString)
              /\ is_hex_digit a = true /\ is_hex_digit b = true.
Proof.
  destruct g as [|a [|b [|]]]; try discriminate. cbn.
  rewrite andb_true_iff. intros [Ha Hb]. eauto.
Qed.

Lemma join_hex_groups (groups : list string) :
  forallb two_hex_digits groups = true ->
  Forall (fun c => is_hex_digit c = true) (list_ascii_of_string (join groups)).
Proof.
  induction groups as [|g rest IH]; cbn [forallb join]; [constructor|].
  rewrite andb_true_iff. intros [Hg Hrest].
  destruct (two_hex_digits_inv g Hg) as (a & b & -> & Ha & Hb).
  cbn. repeat constructor; try assumption. apply IH, Hrest.
Qed.

(** Every MAC address of the specification is accepted. *)
Lemma is_valid_mac_complete (s : string) :
  is_valid_mac_spec s = true -> DHCPConfig._is_valid_mac s = true.
Proof.
  unfold is_valid_mac_spec, DHCPConfig._is_valid_mac.
  rewrite andb_true_iff. intros [Hlen Hgroups]. rewrite Hlen. cbn [negb].
  rewrite py_remove_split.
  destruct (@py_int16_hex_digits (join (py_split ":"%char s))) as [v ->];
    [| apply join_hex_groups, Hgroups | reflexivity].
  destruct (py_split ":"%char s) as [|g rest]; [discriminate|].
  cbn [forallb] in Hgroups. apply andb_true_iff in Hgroups. destruct Hgroups as [Hg _].
  destruct (two_hex_digits_inv g Hg) as (a & b & -> & _). discriminate.
Qed.

(** C1: [_is_valid_mac] accepts every string of six colon-separated groups
    of two hexadecimal digits, and strings that are nothing of the kind:
    it counts the groups and parses what is left without the colons as one
    number, so the groups may be empty or of any length, and a sign, a
    base prefix, an underscore or blanks around the string pass. *)
Theorem is_valid_mac_accepts_malformed :
  (forall s, is_valid_mac_spec s = true -> DHCPConfig._is_valid_mac s = true)
  /\ DHCPConfig._is_valid_mac "aa:bb:cc:dd:ee:ff" = true
  /\ DHCPConfig._is_valid_mac "aa:bb:cc" = false
  /\ DHCPConfig._is_valid_mac "gg:bb:cc:dd:ee:ff" = false
  /\ (DHCPConfig._is_valid_mac "a:::::" = true
      /\ is_valid_mac_spec "a:::::" = false)
  /\ (DHCPConfig._is_valid_mac "aabbccddeeff:::::" = true
      /\ is_valid_mac_spec "aabbccddeeff:::::" = false)
  /\ (DHCPConfig._is_valid_mac "1:2:3:4:5:6" = true
      /\ is_valid_mac_spec "1:2:3:4:5:6" = false)
  /\ (DHCPConfig._is_valid_mac "-a:bb:cc:dd:ee:ff" = true
      /\ is_valid_mac_spec "-a:bb:cc:dd:ee:ff" = false)
  /\ (DHCPConfig._is_valid_mac "0x:bb:cc:dd:ee:ff" = true
      /\ is_valid_mac_spec "0x:bb:cc:dd:ee:ff" = false)
  /\ (DHCPConfig._is_valid_mac "a_:bb:cc:dd:ee:ff" = true
      /\ is_valid_mac_spec "a_:bb:cc:dd:ee:ff" = false)
  /\ (DHCPConfig._is_valid_mac " aa:bb:cc:dd:ee:ff " = true
      /\ is_valid_mac_spec " aa:bb:cc:dd:ee:ff " = false).
Proof.
  split; [exact is_valid_mac_complete|]. repeat split; vm_compute; reflexivity.
Qed.

(** ** The theorems at work on the reference library *)

(** C3 on an example: the mapping of [Reference.example_data] is built into
    its object, and the same mapping with the second DNS server replaced by
    "999.999.999.999" is refused. *)
Lemma from_json_returns_only_valid_witness :
  fst (NetworkConfig.from_json (lib := Reference.ipv4_only)
         (Reference.example_data ["8.8.8.8"; "1.1.1.1"]))
  = Val (Reference.example_config ["8.8.8.8"; "1.1.1.1"])
  /\ result_of (NetworkConfig.validate (lib := Reference.ipv4_only)
                  (Reference.example_config ["8.8.8.8"; "1.1.1.1"]))
     = Val true
  /\ exists e,
      fst (NetworkConfig.from_json (lib := Reference.ipv4_only)
             (Reference.example_data ["8.8.8.8"; "999.999.999.999"]))
      = Exc e.
Proof.
  split; [|split].
  - apply (proj1 (proj2 (from_json_returns_only_valid
                           (lib := Reference.ipv4_only)
                           (Reference.example_data ["8.8.8.8"; "1.1.1.1"]))));
      reflexivity.
  - reflexivity.
  - apply (proj2 (proj2 (from_json_returns_only_valid
                           (lib := Reference.ipv4_only)
                           (Reference.example_data ["8.8.8.8"; "999.999.999.999"])))
             [PStr "8.8.8.8"; PStr "999.999.999.999"] "999.999.999.999"
             "does not appear to be an IPv4 or IPv6 address").
    + reflexivity.
    + right. left. reflexivity.
    + reflexivity.
Defined.

(** C5 on an example: two valid VLANs with id 10. *)
Lemma duplicate_vlan_ids_invalid_witness :
  wt_config Reference.two_vlans_id_10 = true
  /\ result_of (NetworkConfig.validate (lib := Reference.ipv4_only)
                  Reference.two_vlans_id_10)
     = Val false.
Proof.
  split; [reflexivity|].
  apply (duplicate_vlan_ids_invalid (lib := Reference.ipv4_only)).
  - reflexivity.
  - intros v [<-|[<-|[]]]; reflexivity.
  - intros H. inversion H as [|? ? Hnotin _]. apply Hnotin. left. reflexivity.
Defined.

(** C6 on an example: the ids 1 and 4094 with a subnet the library accepts. *)
Lemma vlan_id_range_witness :
  result_of (VLANConfig.validate (lib := Reference.ipv4_only)
               (VLANConfig.mk (PInt 1) (PStr "first") (PStr "10.0.1.0/24")) tt)
  = Val true
  /\ result_of (VLANConfig.validate (lib := Reference.ipv4_only)
                  (VLANConfig.mk (PInt 4094) (PStr "first") (PStr "10.0.1.0/24")) tt)
     = Val true.
Proof.
  apply (proj1 (proj2 (proj2 (vlan_id_range (lib := Reference.ipv4_only)
                                            (PStr "first") (PStr "10.0.1.0/24"))))).
  reflexivity.
Defined.

(** The second reservation has a key that [_is_valid_mac] refuses, and
    the third, whose address would be refused, is never reached. *)
Lemma dhcp_validate_never_raises_ValueError_witness :
  wt_dhcp Reference.dhcp_with_bad_mac = true
  /\ DHCPConfig.validate (lib := Reference.ipv4_only) Reference.dhcp_with_bad_mac tt
     = (Val false, tt,
        [EvIpNetwork (PStr "192.168.1.0/24"); EvIpAddress (PStr "192.168.1.1");
         EvIpAddress (PStr "192.168.1.10");
         EvLog (mkLog ERROR "Invalid MAC address format: {}"
                      [AVal (PStr "aa:bb:cc:dd:ee")])]).
Proof.
  split; [reflexivity|].
  apply (proj1 (proj2 (dhcp_validate_never_raises_ValueError
                         (lib := Reference.ipv4_only) Reference.dhcp_with_bad_mac))
           [("aa:bb:cc:dd:ee:ff", PStr "192.168.1.10")]
           [("aa:bb:cc:dd:ee:00", PStr "not an address")]
           "aa:bb:cc:dd:ee" (PStr "192.168.1.11")).
  - reflexivity.
  - reflexivity.
  - reflexivity.
  - intros m i [[= <- <-]|[]]. split; reflexivity.
  - reflexivity.
Defined.

(** The end-to-end scenario of the specification: the first device raises,
    the switch after it is still called, and the result is [False] with one
    failure among the two outcomes. *)
Example deploy_continues_past_a_failure :
  let devices := [mkDevice Custom "down" "192.168.1.1";
                  mkDevice Switch "switch1" "192.168.1.2"] in
  let config := Reference.example_config ["8.8.8.8"] in
  result_of (deploy_configuration (fleet := Reference.test_fleet) config devices 0%nat)
  = Val false
  /\ deploy_calls
       (events_of (deploy_configuration (fleet := Reference.test_fleet) config devices 0%nat))
     = devices
  /\ map succeeded (device_outcomes (fleet := Reference.test_fleet) config devices 0%nat)
     = [false; true].
Proof. repeat split. Qed.

(** * Further properties *)

(** ** What the validation methods log *)

Lemma logs_nothing_app (a b : list event) :
  logs_nothing (a ++ b) = logs_nothing a && logs_nothing b.
Proof. apply forallb_app. Qed.

Lemma reports_prepend (before : list event) (ck : check) :
  logs_nothing before = true ->
  reports ck ->
  reports (fst ck, before ++ snd ck).
Proof.
  intros Hbefore. unfold reports. cbn [fst snd].
  destruct (fst ck) as [[|]|e].
  - intros H. rewrite logs_nothing_app, Hbefore, H. reflexivity.
  - intros (pre & r & -> & Hr & Hpre). exists (before ++ pre), r.
    rewrite app_assoc, logs_nothing_app, Hbefore, Hpre. repeat split. exact Hr.
  - intros H. rewrite logs_nothing_app, Hbefore, H. reflexivity.
Qed.

Lemma reports_error_at_end (before : list event) (r : log_record) :
  logs_nothing before = true ->
  log_level r = ERROR ->
  reports (Val false, before ++ [EvLog r]).
Proof. intros Hbefore Hr. exists before, r. repeat split; assumption. Qed.

Lemma reports_fail_fast (checks : list check) :
  Forall reports checks -> reports (fail_fast checks).
Proof.
  induction 1 as [|[r evs] rest Hck _ IH]; [reflexivity|]. cbn [fail_fast].
  destruct r as [[|]|e]; try exact Hck.
  destruct (fail_fast rest) as [r' evs'].
  apply (@reports_prepend evs (r', evs') Hck IH).
Qed.

Section LoggingProofs.
Context {lib : Ipaddress}.

Lemma reservations_loop_reports (items : pydict) :
  reports (run_alone (DHCPConfig.reservations_loop items)).
Proof.
  induction items as [|[mac ip] rest IH]; [reflexivity|].
  rewrite reservations_loop_cons.
  destruct (DHCPConfig._is_valid_mac mac).
  - destruct (ip_address_outcome ip); [reflexivity|].
    apply (@reports_prepend [EvIpAddress ip] _ eq_refl IH).
  - apply (@reports_error_at_end [] (mkLog ERROR _ _) eq_refl eq_refl).
Qed.

Lemma DHCP_validate_reports (d : DHCPConfig.t) :
  reports (run_alone (DHCPConfig.validate d)).
Proof.
  pose proof (reservations_loop_reports) as Hloop.
  unfold run_alone in *.
  unfold DHCPConfig.validate, try_except, bind, lift_res, logger_error, emit, ret.
  rewrite ip_network_run, ip_address_run.
  destruct (ip_network_outcome (DHCPConfig.subnet d)) as [e|].
  { destruct (is_ValueError e); [|reflexivity].
    apply (@reports_error_at_end [EvIpNetwork _] (mkLog ERROR _ _) eq_refl eq_refl). }
  destruct (ip_address_outcome (DHCPConfig.gateway d)) as [e|].
  { destruct (is_ValueError e); [|reflexivity].
    apply (@reports_error_at_end [EvIpNetwork _; EvIpAddress _] (mkLog ERROR _ _) eq_refl eq_refl). }
  destruct (py_items (DHCPConfig.reservations d)) as [items|e].
  2: { destruct (is_ValueError e); [|reflexivity].
       apply (@reports_error_at_end [EvIpNetwork _; EvIpAddress _] (mkLog ERROR _ _) eq_refl eq_refl). }
  specialize (Hloop items).
  destruct (DHCPConfig.reservations_loop items tt) as [[[b|e] u] evs]; cbn [fst snd] in *.
  - apply (@reports_prepend [EvIpNetwork _; EvIpAddress _] (Val b, evs) eq_refl Hloop).
  - unfold reports in Hloop. cbn [fst snd] in Hloop.
    destruct (is_ValueError e).
    + cbn. apply (@reports_error_at_end (EvIpNetwork _ :: EvIpAddress _ :: evs) (mkLog ERROR _ _)).
      * exact Hloop.
      * reflexivity.
    + cbn. unfold reports. cbn. exact Hloop.
Qed.

Lemma VLAN_validate_reports (v : VLANConfig.t) : reports (vlan_check v).
Proof.
  unfold vlan_check, run_alone, VLANConfig.validate, try_except, bind, lift_res,
    logger_error, emit, ret.
  destruct (py_between 1 (VLANConfig.id v) 4094) as [[|]|e]; cbn -[ip_network].
  - rewrite ip_network_run.
    destruct (ip_network_outcome (VLANConfig.subnet v)) as [e|]; [|reflexivity].
    destruct (is_ValueError e); [|reflexivity].
    apply (@reports_error_at_end [EvIpNetwork _] (mkLog ERROR _ _) eq_refl eq_refl).
  - apply (@reports_error_at_end [] (mkLog ERROR _ _) eq_refl eq_refl).
  - destruct (is_ValueError e); [|reflexivity].
    apply (@reports_error_at_end [] (mkLog ERROR _ _) eq_refl eq_refl).
Qed.

Lemma validation_checks_report (c : NetworkConfig.t) :
  Forall reports (validation_checks c).
Proof.
  unfold validation_checks. rewrite !Forall_app. repeat split.
  - unfold dhcp_checks. destruct (NetworkConfig.dhcp c) as [d|]; [|constructor].
    constructor; [apply DHCP_validate_reports | constructor].
  - apply Forall_map, Forall_forall. intros v _. apply VLAN_validate_reports.
  - constructor; [|constructor]. unfold duplicate_check.
    destruct (py_set _) as [distinct|e]; [|reflexivity].
    destruct (Nat.eqb _ _); [reflexivity|].
    apply (@reports_error_at_end [] (mkLog ERROR _ _) eq_refl eq_refl).
  - unfold dns_checks. destruct (py_iter _) as [servers|e].
    + apply Forall_map, Forall_forall. intros dns _. unfold dns_check.
      destruct (ip_address_outcome dns) as [e|]; [|reflexivity].
      destruct (is_ValueError e); [|reflexivity].
      apply (@reports_error_at_end [EvIpAddress _] (mkLog ERROR _ _) eq_refl eq_refl).
    + constructor; [reflexivity | constructor].
Qed.

(** X1: whatever the configuration, [NetworkConfig.validate] reports a
    failure exactly once: when it returns [False] it has logged one record,
    at level ERROR, as its last event; when it returns [True] or raises it
    has logged nothing. *)
Theorem validate_reports_each_failure_once (c : NetworkConfig.t) :
  match result_of (NetworkConfig.validate c) with
  | Val false => reports_one_error (events_of (NetworkConfig.validate c))
  | _ => logs_nothing (events_of (NetworkConfig.validate c)) = true
  end.
Proof.
  rewrite validate_run. unfold result_of, events_of. cbn [fst snd].
  apply (reports_fail_fast (validation_checks_report c)).
Qed.
End LoggingProofs.

(** ** The verdicts of the validation methods *)

Section VerdictProofs.
Context {lib : Ipaddress}.

Local Abbreviation reservation_ok :=
  (fun kv : string * pyval =>
     DHCPConfig._is_valid_mac (fst kv) = true /\ ip_address_outcome (snd kv) = None).

Lemma reservations_loop_true (items : pydict) :
  fst (run_alone (DHCPConfig.reservations_loop items)) = Val true
  <-> Forall reservation_ok items.
Proof.
  induction items as [|[mac ip] rest IH].
  - split; [constructor | reflexivity].
  - rewrite reservations_loop_cons. cbn [fst snd]. split.
    + intros H. destruct (DHCPConfig._is_valid_mac mac) eqn:Hmac; [|discriminate].
      destruct (ip_address_outcome ip) eqn:Hip; [discriminate|].
      constructor; [split; assumption | apply IH, H].
    + intros H. inversion H as [|? ? [Hmac Hip] Hrest]; subst. cbn [fst snd] in *.
      rewrite Hmac, Hip. apply IH, Hrest.
Qed.

Lemma reservations_loop_true_events (items : pydict) :
  fst (run_alone (DHCPConfig.reservations_loop items)) = Val true ->
  snd (run_alone (DHCPConfig.reservations_loop items))
  = map (fun kv => EvIpAddress (snd kv)) items.
Proof.
  induction items as [|[mac ip] rest IH]; [reflexivity|].
  rewrite reservations_loop_cons.
  destruct (DHCPConfig._is_valid_mac mac); [|discriminate].
  destruct (ip_address_outcome ip); [discriminate|].
  cbn [fst snd map]. intros H. rewrite (IH H). reflexivity.
Qed.

(** [DHCPConfig.validate], step by step. *)
Lemma DHCP_validate_closed (d : DHCPConfig.t) :
  run_alone (DHCPConfig.validate d)
  = let network := EvIpNetwork (DHCPConfig.subnet d) in
    let address := EvIpAddress (DHCPConfig.gateway d) in
    let caught (e : exn) (evs : list event) : check :=
      if is_ValueError e then
        (Val false, evs ++ [EvLog (mkLog ERROR "DHCP validation error: {}" [AExn e])])
      else (Exc e, evs) in
    match ip_network_outcome (DHCPConfig.subnet d) with
    | Some e => caught e [network]
    | None =>
        match ip_address_outcome (DHCPConfig.gateway d) with
        | Some e => caught e [network; address]
        | None =>
            match py_items (DHCPConfig.reservations d) with
            | Exc e => caught e [network; address]
            | Val items =>
                match run_alone (DHCPConfig.reservations_loop items) with
                | (Val b, evs) => (Val b, network :: address :: evs)
                | (Exc e, evs) => caught e (network :: address :: evs)
                end
            end
        end
    end.
Proof.
  cbv zeta. unfold run_alone.
  unfold DHCPConfig.validate, try_except, bind, lift_res, logger_error, emit, ret.
  rewrite ip_network_run, ip_address_run.
  destruct (ip_network_outcome (DHCPConfig.subnet d)) as [e|];
    [destruct (is_ValueError e); reflexivity|].
  destruct (ip_address_outcome (DHCPConfig.gateway d)) as [e|];
    [destruct (is_ValueError e); reflexivity|].
  destruct (py_items (DHCPConfig.reservations d)) as [items|e];
    [|destruct (is_ValueError e); reflexivity].
  destruct (DHCPConfig.reservations_loop items tt) as [[[b|e] u] evs]; cbn;
    [reflexivity|].
  destruct (is_ValueError e); reflexivity.
Qed.

(** X2: whatever the types of its fields, a DHCP block is valid exactly
    when the library accepts its subnet and its gateway, its reservations
    are a mapping, and every reservation has a key that [_is_valid_mac]
    accepts and an address that the library accepts. *)
Theorem dhcp_validate_true_iff (d : DHCPConfig.t) :
  result_of (DHCPConfig.validate d tt) = Val true
  <-> ip_network_outcome (DHCPConfig.subnet d) = None
      /\ ip_address_outcome (DHCPConfig.gateway d) = None
      /\ exists items : pydict,
          DHCPConfig.reservations d = PDict items
          /\ Forall (fun kv => DHCPConfig._is_valid_mac (fst kv) = true
                               /\ ip_address_outcome (snd kv) = None) items.
Proof.
  rewrite DHCP_validate_frame. unfold result_of. cbn [fst].
  rewrite DHCP_validate_closed. cbv zeta.
  destruct (ip_network_outcome (DHCPConfig.subnet d)) as [e|].
  { split; [destruct (is_ValueError e); discriminate | intros [H _]; discriminate]. }
  destruct (ip_address_outcome (DHCPConfig.gateway d)) as [e|].
  { split; [destruct (is_ValueError e); discriminate | intros (_ & H & _); discriminate]. }
  destruct (DHCPConfig.reservations d) as [| | | | | |items];
    try (split; [discriminate | intros (_ & _ & items' & H & _); discriminate]).
  cbn [py_items]. pose proof (reservations_loop_true items) as Hloop.
  destruct (run_alone (DHCPConfig.reservations_loop items)) as [[b|e] evs];
    cbn [fst snd] in *.
  - split.
    + intros H. repeat split. exists items. split; [reflexivity|]. apply Hloop, H.
    + intros (_ & _ & items' & [= <-] & Hall). apply Hloop, Hall.
  - split.
    + destruct (is_ValueError e); discriminate.
    + intros (_ & _ & items' & [= <-] & Hall). apply Hloop in Hall. discriminate.
Qed.

(** X3: a DHCP block that is valid is validated in silence: the subnet is
    parsed, then the gateway, then the address of each reservation in the
    order of the mapping, and nothing is logged. *)
Theorem dhcp_validate_true_trace (d : DHCPConfig.t) :
  result_of (DHCPConfig.validate d tt) = Val true ->
  exists items : pydict,
    DHCPConfig.reservations d = PDict items
    /\ forall (S : Type) (s : S),
        DHCPConfig.validate d s
        = (Val true, s,
           EvIpNetwork (DHCPConfig.subnet d) :: EvIpAddress (DHCPConfig.gateway d)
           :: map (fun kv => EvIpAddress (snd kv)) items).
Proof.
  rewrite DHCP_validate_frame. unfold result_of. cbn [fst].
  intros H.
  assert (Hframe : forall (S : Type) (s : S),
             DHCPConfig.validate d s
             = (fst (run_alone (DHCPConfig.validate d)), s,
                snd (run_alone (DHCPConfig.validate d))))
    by (intros; apply DHCP_validate_frame).
  rewrite DHCP_validate_closed in H, Hframe. cbv zeta in H, Hframe.
  destruct (ip_network_outcome (DHCPConfig.subnet d)) as [e|];
    [destruct (is_ValueError e); discriminate|].
  destruct (ip_address_outcome (DHCPConfig.gateway d)) as [e|];
    [destruct (is_ValueError e); discriminate|].
  destruct (DHCPConfig.reservations d) as [| | | | | |items]; try discriminate.
  cbn [py_items] in *. exists items. split; [reflexivity|].
  pose proof (reservations_loop_true_events items) as Hevs.
  destruct (run_alone (DHCPConfig.reservations_loop items)) as [[b|e] evs];
    cbn [fst snd] in *; [|destruct (is_ValueError e); discriminate].
  injection H as ->. rewrite <- (Hevs eq_refl). exact Hframe.
Qed.

(** X4: reservations that are no mapping make [DHCPConfig.validate] raise
    [AttributeError] instead of returning, once the subnet and the gateway
    have been parsed and accepted; nothing is logged. *)
Theorem dhcp_validate_reservations_not_a_mapping (d : DHCPConfig.t) :
  (forall items : pydict, DHCPConfig.reservations d <> PDict items) ->
  ip_network_outcome (DHCPConfig.subnet d) = None ->
  ip_address_outcome (DHCPConfig.gateway d) = None ->
  forall (S : Type) (s : S),
  exists e : exn,
    exn_cls e = AttributeError
    /\ DHCPConfig.validate d s
       = (Exc e, s,
          [EvIpNetwork (DHCPConfig.subnet d); EvIpAddress (DHCPConfig.gateway d)]).
Proof.
  intros Hres Hsubnet Hgateway S s.
  rewrite DHCP_validate_frame, DHCP_validate_closed. cbv zeta.
  rewrite Hsubnet, Hgateway.
  destruct (DHCPConfig.reservations d) as [| | | | | |items];
    try (eexists; split; [|reflexivity]; reflexivity).
  exfalso. exact (Hres items eq_refl).
Qed.

(** X5: an id that is no number ([None], a string, a list, a mapping)
    makes [VLANConfig.validate] raise [TypeError] instead of returning:
    nothing is logged and the subnet is not looked at. *)
Theorem vlan_validate_id_not_a_number (v : VLANConfig.t) :
  is_number (VLANConfig.id v) = false ->
  forall (S : Type) (s : S),
  exists e : exn,
    exn_cls e = TypeError /\ VLANConfig.validate v s = (Exc e, s, []).
Proof.
  intros Hid S s.
  unfold VLANConfig.validate, try_except, bind, lift_res, logger_error, emit, ret.
  destruct (VLANConfig.id v); try discriminate;
    (eexists; split; [|reflexivity]; reflexivity).
Qed.

Lemma py_between_number (a b : Z) (v : pyval) (q : Q) :
  py_number v = Some q ->
  py_between a v b = Val (Qle_bool (inject_Z a) q && Qle_bool q (inject_Z b)).
Proof.
  assert (Hle : forall x y, (x <=? y) = Qle_bool (inject_Z x) (inject_Z y)).
  { intros x y. unfold Qle_bool. cbn. rewrite !Z.mul_1_r. reflexivity. }
  unfold py_between.
  destruct v as [|c|z|[| |q']| | |]; try discriminate; cbn [py_number];
    intros [= <-]; cbn [py_int_le py_le_int].
  - destruct c; rewrite !Hle; destruct (Qle_bool (inject_Z a) _); reflexivity.
  - rewrite !Hle. destruct (Qle_bool (inject_Z a) (inject_Z z)); reflexivity.
  - destruct (Qle_bool (inject_Z a) q'); reflexivity.
Qed.

(** X6: the range check is on the value of the id, not on its type: a
    VLAN whose id is a number ([True] counts as 1, a finite float as the
    number it denotes) is valid exactly when the value is between 1 and
    4094 and the library accepts the subnet; an id that is NaN or an
    infinity is refused. *)
Theorem vlan_validate_numeric_id (v : VLANConfig.t) :
  (forall q : Q,
      py_number (VLANConfig.id v) = Some q ->
      (result_of (VLANConfig.validate v tt) = Val true
       <-> (1 <= q)%Q /\ (q <= 4094)%Q
           /\ ip_network_outcome (VLANConfig.subnet v) = None))
  /\ ((VLANConfig.id v = PFloat FNaN \/ exists negative, VLANConfig.id v = PFloat (FInf negative)) ->
      VLANConfig.validate v tt
      = (Val false, tt,
         [EvLog (mkLog ERROR "Invalid VLAN ID: {}" [AVal (VLANConfig.id v)])])).
Proof.
  split.
  - intros q Hq.
    unfold VLANConfig.validate, try_except, bind, lift_res, logger_error, emit, ret,
      result_of.
    rewrite (py_between_number 1 4094 _ Hq).
    change (inject_Z 1) with 1%Q. change (inject_Z 4094) with 4094%Q.
    rewrite <- !Qle_bool_iff.
    destruct (Qle_bool 1 q); cbn -[ip_network];
      [|split; [discriminate | intros (H & _); discriminate]].
    destruct (Qle_bool q 4094); cbn -[ip_network];
      [|split; [discriminate | intros (_ & H & _); discriminate]].
    rewrite ip_network_run.
    destruct (ip_network_outcome (VLANConfig.subnet v)) as [e|]; cbn.
    + split; [destruct (is_ValueError e); discriminate | intros (_ & _ & H); discriminate].
    + split; [intros _; repeat split | reflexivity].
  - unfold VLANConfig.validate, try_except, bind, lift_res, logger_error, emit, ret.
    intros [->|[[|] ->]]; reflexivity.
Qed.

Lemma duplicate_check_ints (vl : list VLANConfig.t) (zs : list Z) :
  map VLANConfig.id vl = map PInt zs ->
  (fst (duplicate_check vl) = Val true <-> NoDup zs).
Proof.
  intros Hids. unfold duplicate_check, py_set. rewrite Hids.
  destruct (py_set_from_ints zs []) as (d & Hd & Hnodup & Hin).
  cbn [map] in Hd. rewrite Hd, !length_map.
  assert (Hincl : incl d zs).
  { intros z Hz. apply Hin in Hz. destruct Hz as [[]|Hz]. exact Hz. }
  assert (Hincl' : incl zs d).
  { intros z Hz. apply Hin. right. exact Hz. }
  specialize (Hnodup (NoDup_nil Z)).
  destruct (Nat.eqb (List.length zs) (List.length d)) eqn:Hlen; cbn [fst].
  - apply Nat.eqb_eq in Hlen. split; [intros _|reflexivity].
    apply (@NoDup_incl_NoDup Z d zs Hnodup); [rewrite Hlen; apply Nat.le_refl | exact Hincl].
  - apply Nat.eqb_neq in Hlen. split; [discriminate|]. intros Hzs. exfalso.
    apply Hlen. apply Nat.le_antisymm.
    + apply (NoDup_incl_length Hzs Hincl').
    + apply (NoDup_incl_length Hnodup Hincl).
Qed.

Lemma NoDup_map_PInt_iff (zs : list Z) : NoDup (map PInt zs) <-> NoDup zs.
Proof.
  split; [|apply NoDup_map_PInt].
  induction zs as [|z zs IH]; cbn; intros H; [constructor|].
  inversion H as [|? ? Hz Hrest]; subst. constructor; [|apply IH, Hrest].
  intros Hin. apply Hz, in_map, Hin.
Qed.

(** X7: a configuration whose fields have their declared types is valid
    exactly when its DHCP block, if it has one, is valid, each of its VLANs
    is valid, no two VLANs have the same id, and the library accepts each
    of its DNS servers. *)
Theorem validate_true_iff (c : NetworkConfig.t) :
  wt_config c = true ->
  (result_of (NetworkConfig.validate c) = Val true
   <-> (forall d, NetworkConfig.dhcp c = Some d ->
                  result_of (DHCPConfig.validate d tt) = Val true)
       /\ (forall v, In v (NetworkConfig.vlans c) ->
                     result_of (VLANConfig.validate v tt) = Val true)
       /\ NoDup (map VLANConfig.id (NetworkConfig.vlans c))
       /\ (forall dns, In dns (match NetworkConfig.dns_servers c with
                               | PList servers => servers
                               | _ => []
                               end) ->
                       ip_address_outcome dns = None)).
Proof.
  intros Hwt. unfold wt_config in Hwt. rewrite !andb_true_iff in Hwt.
  destruct Hwt as [[_ Hvlans] Hdns].
  destruct (wt_vlans_ids _ Hvlans) as [zs Hzs].
  rewrite validate_run. unfold result_of. cbn [fst].
  rewrite fail_fast_true. unfold validation_checks. rewrite !Forall_app.
  rewrite Hzs, NoDup_map_PInt_iff, <- (@duplicate_check_ints (NetworkConfig.vlans c) zs Hzs).
  destruct (NetworkConfig.dns_servers c) as [| | | | |servers|]; try discriminate.
  unfold dns_checks. cbn [py_iter]. rewrite !Forall_map, !Forall_forall.
  split.
  - intros (Hd & Hv & Hdup & Hs). repeat split.
    + intros d Hsome. rewrite Hsome in Hd.
      rewrite DHCP_validate_frame. apply Hd. left. reflexivity.
    + intros v Hin. rewrite VLAN_validate_frame. apply Hv, Hin.
    + apply Hdup. left. reflexivity.
    + intros dns Hin. specialize (Hs dns Hin). unfold dns_check in Hs.
      destruct (ip_address_outcome dns) as [e|]; [|reflexivity].
      destruct (is_ValueError e); discriminate.
  - intros (Hd & Hv & Hdup & Hs). repeat split.
    + intros ck Hin. unfold dhcp_checks in Hin.
      destruct (NetworkConfig.dhcp c) as [d|]; [|contradiction].
      destruct Hin as [<-|[]]. specialize (Hd d eq_refl).
      rewrite DHCP_validate_frame in Hd. exact Hd.
    + intros v Hin. specialize (Hv v Hin). rewrite VLAN_validate_frame in Hv. exact Hv.
    + intros ck [<-|[]]. exact Hdup.
    + intros dns Hin. unfold dns_check. rewrite (Hs dns Hin). reflexivity.
Qed.

(** X8: the firewall rules are never looked at: two configurations that
    differ only in their firewall rules get the same verdict, after the
    same events. *)
Theorem validate_ignores_firewall_rules (c : NetworkConfig.t) (rules : pyval) :
  result_of (NetworkConfig.validate (NetworkConfig.set_firewall_rules rules c))
  = result_of (NetworkConfig.validate c)
  /\ events_of (NetworkConfig.validate (NetworkConfig.set_firewall_rules rules c))
     = events_of (NetworkConfig.validate c).
Proof. rewrite !validate_run. split; reflexivity. Qed.
End VerdictProofs.

(** ** Construction: the schema *)

Lemma dict_mem_In (k : string) (d : pydict) :
  dict_mem k d = true <-> In k (map fst d).
Proof.
  unfold dict_mem. induction d as [|[k' v] rest IH]; cbn.
  - split; [discriminate | intros []].
  - destruct (String.eqb_spec k k') as [->|Hne].
    + split; [intros _; left; reflexivity | reflexivity].
    + rewrite IH. split; [intros H; right; exact H | intros [H|H]; [congruence | exact H]].
Qed.

Lemma existsb_eqb_In (k : string) (fields : list string) :
  existsb (String.eqb k) fields = true <-> In k fields.
Proof.
  rewrite existsb_exists. split.
  - intros (f & Hin & Heq). apply String.eqb_eq in Heq. subst. exact Hin.
  - intros Hin. exists k. split; [exact Hin | apply String.eqb_refl].
Qed.

Lemma dataclass_kwargs_ok (fields : list string) (v : pyval) (d : pydict) :
  dataclass_kwargs fields v = Val d
  <-> v = PDict d /\ forall k, In k (map fst d) <-> In k fields.
Proof.
  unfold dataclass_kwargs. destruct v as [| | | | | |m];
    try (split; [discriminate | intros [H _]; discriminate]).
  destruct (forallb _ m && forallb _ fields) eqn:Hkeys.
  - apply andb_true_iff in Hkeys. destruct Hkeys as [Hknown Hpresent].
    rewrite forallb_forall in Hknown, Hpresent.
    split; [intros [= <-] | intros [[= <-] _]; reflexivity].
    split; [reflexivity|]. intros k. split.
    + intros Hin. apply in_map_iff in Hin. destruct Hin as ([k' x] & <- & Hin).
      apply existsb_eqb_In. exact (Hknown _ Hin).
    + intros Hin. apply dict_mem_In. exact (Hpresent _ Hin).
  - split; [discriminate|]. intros [[= <-] Hsame]. exfalso.
    apply andb_false_iff in Hkeys. destruct Hkeys as [H|H].
    + assert (Hall : forallb (fun kv : string * pyval =>
                                existsb (String.eqb (fst kv)) fields) m = true).
      { apply forallb_forall. intros [k x] Hin. apply existsb_eqb_In, Hsame.
        apply in_map_iff. exists (k, x). split; [reflexivity | exact Hin]. }
      congruence.
    + assert (Hall : forallb (fun f => dict_mem f m) fields = true).
      { apply forallb_forall. intros f Hin. apply dict_mem_In, Hsame, Hin. }
      congruence.
Qed.

Lemma dataclass_kwargs_TypeError (fields : list string) (v : pyval) (e : exn) :
  dataclass_kwargs fields v = Exc e -> exn_cls e = TypeError.
Proof.
  unfold dataclass_kwargs. destruct v; try (intros [= <-]; reflexivity).
  destruct (_ && _); [discriminate | intros [= <-]; reflexivity].
Qed.

(** X9: the constructors of the two dataclasses, called with a value
    unpacked into keyword arguments, succeed exactly on a mapping whose
    keys are the declared fields, no more and no fewer; the fields of the
    object are the values of the mapping, of whatever type; anything else
    is a [TypeError]. *)
Theorem dataclass_constructors_check_keys_only (v : pyval) :
  (forall d : DHCPConfig.t,
      DHCPConfig.new v = Val d
      <-> exists m : pydict,
          v = PDict m
          /\ (forall k, In k (map fst m) <-> In k ["reservations"; "subnet"; "gateway"])
          /\ dict_get "reservations" m = Some (DHCPConfig.reservations d)
          /\ dict_get "subnet" m = Some (DHCPConfig.subnet d)
          /\ dict_get "gateway" m = Some (DHCPConfig.gateway d))
  /\ (forall vlan : VLANConfig.t,
        VLANConfig.new v = Val vlan
        <-> exists m : pydict,
            v = PDict m
            /\ (forall k, In k (map fst m) <-> In k ["id"; "name"; "subnet"])
            /\ dict_get "id" m = Some (VLANConfig.id vlan)
            /\ dict_get "name" m = Some (VLANConfig.name vlan)
            /\ dict_get "subnet" m = Some (VLANConfig.subnet vlan))
  /\ (forall e, DHCPConfig.new v = Exc e -> exn_cls e = TypeError)
  /\ (forall e, VLANConfig.new v = Exc e -> exn_cls e = TypeError).
Proof.
  split; [|split; [|split]].
  - intros [r s g]. unfold DHCPConfig.new. cbn [DHCPConfig.reservations
      DHCPConfig.subnet DHCPConfig.gateway]. split.
    + destruct (dataclass_kwargs _ v) as [m|e] eqn:Hkw; [|discriminate].
      apply dataclass_kwargs_ok in Hkw. destruct Hkw as [-> Hkeys].
      destruct (dict_get "reservations" m) as [r'|] eqn:Hr; [|discriminate].
      destruct (dict_get "subnet" m) as [s'|] eqn:Hs; [|discriminate].
      destruct (dict_get "gateway" m) as [g'|] eqn:Hg; [|discriminate].
      intros [= <- <- <-]. exists m. split; [reflexivity|]. split; [exact Hkeys|].
      repeat split; assumption.
    + intros (m & -> & Hkeys & Hr & Hs & Hg).
      rewrite (proj2 (dataclass_kwargs_ok _ (PDict m) m) (conj eq_refl Hkeys)).
      rewrite Hr, Hs, Hg. reflexivity.
  - intros [i n s]. unfold VLANConfig.new. cbn [VLANConfig.id VLANConfig.name
      VLANConfig.subnet]. split.
    + destruct (dataclass_kwargs _ v) as [m|e] eqn:Hkw; [|discriminate].
      apply dataclass_kwargs_ok in Hkw. destruct Hkw as [-> Hkeys].
      destruct (dict_get "id" m) as [i'|] eqn:Hi; [|discriminate].
      destruct (dict_get "name" m) as [n'|] eqn:Hn; [|discriminate].
      destruct (dict_get "subnet" m) as [s'|] eqn:Hs; [|discriminate].
      intros [= <- <- <-]. exists m. split; [reflexivity|]. split; [exact Hkeys|].
      repeat split; assumption.
    + intros (m & -> & Hkeys & Hi & Hn & Hs).
      rewrite (proj2 (dataclass_kwargs_ok _ (PDict m) m) (conj eq_refl Hkeys)).
      rewrite Hi, Hn, Hs. reflexivity.
  - intros e. unfold DHCPConfig.new.
    destruct (dataclass_kwargs _ v) as [m|e'] eqn:Hkw.
    + destruct (dict_get "reservations" m), (dict_get "subnet" m), (dict_get "gateway" m);
        try discriminate; intros [= <-]; reflexivity.
    + intros [= <-]. exact (dataclass_kwargs_TypeError _ _ Hkw).
  - intros e. unfold VLANConfig.new.
    destruct (dataclass_kwargs _ v) as [m|e'] eqn:Hkw.
    + destruct (dict_get "id" m), (dict_get "name" m), (dict_get "subnet" m);
        try discriminate; intros [= <-]; reflexivity.
    + intros [= <-]. exact (dataclass_kwargs_TypeError _ _ Hkw).
Qed.

(** ** Construction: errors and fields *)

Lemma DHCP_new_TypeError (v : pyval) (e : exn) :
  DHCPConfig.new v = Exc e -> exn_cls e = TypeError.
Proof.
  unfold DHCPConfig.new. destruct (dataclass_kwargs _ v) as [m|e'] eqn:Hkw.
  - destruct (dict_get "reservations" m), (dict_get "subnet" m), (dict_get "gateway" m);
      try discriminate; intros [= <-]; reflexivity.
  - intros [= <-]. exact (dataclass_kwargs_TypeError _ _ Hkw).
Qed.

Lemma VLAN_new_TypeError (v : pyval) (e : exn) :
  VLANConfig.new v = Exc e -> exn_cls e = TypeError.
Proof.
  unfold VLANConfig.new. destruct (dataclass_kwargs _ v) as [m|e'] eqn:Hkw.
  - destruct (dict_get "id" m), (dict_get "name" m), (dict_get "subnet" m);
      try discriminate; intros [= <-]; reflexivity.
  - intros [= <-]. exact (dataclass_kwargs_TypeError _ _ Hkw).
Qed.

Lemma map_res_Exc {A B} (f : A -> res B) (l : list A) (e : exn) :
  map_res f l = Exc e -> exists x, In x l /\ f x = Exc e.
Proof.
  induction l as [|x rest IH]; cbn; [discriminate|].
  destruct (f x) as [y|e'] eqn:Hx.
  - destruct (map_res f rest) as [ys|e'']; [discriminate|].
    intros [= <-]. destruct (IH eq_refl) as (x' & Hin & Hx'). eauto.
  - intros [= <-]. eauto.
Qed.

Lemma map_res_length {A B} (f : A -> res B) (l : list A) (ys : list B) :
  map_res f l = Val ys -> List.length ys = List.length l.
Proof.
  revert ys. induction l as [|x rest IH]; cbn; intros ys.
  - intros [= <-]. reflexivity.
  - destruct (f x); [|discriminate]. destruct (map_res f rest); [|discriminate].
    intros [= <-]. cbn. f_equal. apply IH. reflexivity.
Qed.

Lemma py_iter_TypeError (v : pyval) (e : exn) :
  py_iter v = Exc e -> exn_cls e = TypeError.
Proof. destruct v; cbn; try discriminate; intros [= <-]; reflexivity. Qed.

Lemma config_of_data_TypeError (config_data : pydict) (e : exn) :
  config_of_data config_data = Exc e -> exn_cls e = TypeError.
Proof.
  unfold config_of_data.
  destruct (dict_get "dhcp" config_data) as [v|].
  - destruct (DHCPConfig.new v) as [d|e'] eqn:Hd;
      [|intros [= <-]; exact (DHCP_new_TypeError _ Hd)].
    destruct (dict_get "vlans" config_data) as [w|]; [|discriminate].
    destruct (py_iter w) as [items|e'] eqn:Hw;
      [|intros [= <-]; exact (py_iter_TypeError _ Hw)].
    destruct (map_res VLANConfig.new items) as [vl|e'] eqn:Hvl; [discriminate|].
    intros [= <-]. destruct (map_res_Exc _ _ Hvl) as (x & _ & Hx).
    exact (VLAN_new_TypeError _ Hx).
  - destruct (dict_get "vlans" config_data) as [w|]; [|discriminate].
    destruct (py_iter w) as [items|e'] eqn:Hw;
      [|intros [= <-]; exact (py_iter_TypeError _ Hw)].
    destruct (map_res VLANConfig.new items) as [vl|e'] eqn:Hvl; [discriminate|].
    intros [= <-]. destruct (map_res_Exc _ _ Hvl) as (x & _ & Hx).
    exact (VLAN_new_TypeError _ Hx).
Qed.

Section ConstructionProofs.
Context {lib : Ipaddress}.

(** X10: a [dhcp] entry that does not fit [DHCPConfig], a [vlans] entry
    that cannot be iterated, or an element of [vlans] that does not fit
    [VLANConfig], makes [from_json] raise that [TypeError] before anything
    is validated: there is no event, so no library call and no log record. *)
Theorem from_json_schema_error (config_data : pydict) :
  (forall v e,
      dict_get "dhcp" config_data = Some v ->
      DHCPConfig.new v = Exc e ->
      NetworkConfig.from_json config_data = (Exc e, []) /\ exn_cls e = TypeError)
  /\ (forall v e,
        match dict_get "dhcp" config_data with
        | Some d => exists dh, DHCPConfig.new d = Val dh
        | None => True
        end ->
        dict_get "vlans" config_data = Some v ->
        py_iter v = Exc e ->
        NetworkConfig.from_json config_data = (Exc e, []) /\ exn_cls e = TypeError)
  /\ (forall v items e,
        match dict_get "dhcp" config_data with
        | Some d => exists dh, DHCPConfig.new d = Val dh
        | None => True
        end ->
        dict_get "vlans" config_data = Some v ->
        py_iter v = Val items ->
        map_res VLANConfig.new items = Exc e ->
        NetworkConfig.from_json config_data = (Exc e, []) /\ exn_cls e = TypeError).
Proof.
  assert (Hexc : forall e, config_of_data config_data = Exc e ->
                           NetworkConfig.from_json config_data = (Exc e, [])
                           /\ exn_cls e = TypeError).
  { intros e He. split; [|exact (config_of_data_TypeError _ He)].
    rewrite from_json_run, He. reflexivity. }
  split; [|split].
  - intros v e Hv He. apply Hexc. unfold config_of_data. rewrite Hv, He. reflexivity.
  - intros v e Hd Hv He. apply Hexc. unfold config_of_data.
    destruct (dict_get "dhcp" config_data) as [d|];
      [destruct Hd as [dh ->]|]; rewrite Hv, He; reflexivity.
  - intros v items e Hd Hv Hitems He. apply Hexc. unfold config_of_data.
    destruct (dict_get "dhcp" config_data) as [d|];
      [destruct Hd as [dh ->]|]; rewrite Hv, Hitems, He; reflexivity.
Qed.

(** X11: the object [from_json] returns has the DNS servers and the
    firewall rules of the mapping, as they are, or an empty list for a
    missing entry; it has a DHCP block exactly when the mapping has a
    [dhcp] entry, no VLAN when the mapping has no [vlans] entry, and as
    many VLANs as the [vlans] list has elements. The events of the call are
    those of validating that object. *)
Theorem from_json_copies_fields (config_data : pydict) (c : NetworkConfig.t)
        (evs : list event) :
  NetworkConfig.from_json config_data = (Val c, evs) ->
  NetworkConfig.dns_servers c = dict_get_default "dns_servers" (PList []) config_data
  /\ NetworkConfig.firewall_rules c
     = dict_get_default "firewall_rules" (PList []) config_data
  /\ (NetworkConfig.dhcp c = None <-> dict_get "dhcp" config_data = None)
  /\ (dict_get "vlans" config_data = None -> NetworkConfig.vlans c = [])
  /\ (forall items, dict_get "vlans" config_data = Some (PList items) ->
                    List.length (NetworkConfig.vlans c) = List.length items)
  /\ evs = events_of (NetworkConfig.validate c).
Proof.
  rewrite from_json_run. intros H.
  destruct (config_of_data config_data) as [c'|e] eqn:Hc; [|discriminate].
  assert (c' = c /\ evs = snd (fail_fast (validation_checks c'))) as [-> ->].
  { destruct (fst (fail_fast (validation_checks c'))) as [[|]|e]; try discriminate.
    injection H as <- <-. split; reflexivity. }
  clear H. rewrite validate_run. unfold events_of. cbn [snd].
  unfold config_of_data in Hc.
  destruct (dict_get "dhcp" config_data) as [v|].
  - destruct (DHCPConfig.new v) as [d|e]; [|discriminate].
    destruct (dict_get "vlans" config_data) as [w|].
    + destruct (py_iter w) as [its|e] eqn:Hw; [|discriminate].
      destruct (map_res VLANConfig.new its) as [vl|e] eqn:Hvl; [|discriminate].
      injection Hc as <-. cbn. repeat split; try discriminate.
      intros items [= ->]. cbn in Hw. injection Hw as <-.
      exact (map_res_length _ _ Hvl).
    + injection Hc as <-. cbn. repeat split; discriminate.
  - destruct (dict_get "vlans" config_data) as [w|].
    + destruct (py_iter w) as [its|e] eqn:Hw; [|discriminate].
      destruct (map_res VLANConfig.new its) as [vl|e] eqn:Hvl; [|discriminate].
      injection Hc as <-. cbn. repeat split; try discriminate.
      intros items [= ->]. cbn in Hw. injection Hw as <-.
      exact (map_res_length _ _ Hvl).
    + injection Hc as <-. cbn. repeat split; discriminate.
Qed.

Lemma validate_no_ValueError (c : NetworkConfig.t) (e : exn) :
  fst (fail_fast (validation_checks c)) = Exc e -> is_ValueError e = false.
Proof.
  intros H.
  assert (Hres : result_of (NetworkConfig.validate c) = Exc e)
    by (rewrite validate_run; exact H).
  unfold NetworkConfig.validate in Hres.
  match type of Hres with
  | context [try_except ?m _ ?h c] =>
      apply (@try_except_no_escape NetworkConfig.t bool m h c e)
  end; [|exact Hres].
  intros e' s'. exists false. reflexivity.
Qed.

(** X12: the only [ValueError] that [from_json] raises is its own,
    "Invalid configuration data", raised after [validate] returned
    [False]: the [ValueError]s of the library never reach the caller, and a
    mapping that does not fit the schema is a [TypeError]. *)
Theorem from_json_ValueError_is_its_own (config_data : pydict) (e : exn) :
  fst (NetworkConfig.from_json config_data) = Exc e ->
  is_ValueError e = true ->
  e = mkExn ValueError "Invalid configuration data"
  /\ exists c, config_of_data config_data = Val c
               /\ result_of (NetworkConfig.validate c) = Val false.
Proof.
  rewrite from_json_run. intros H Hve.
  destruct (config_of_data config_data) as [c|e'] eqn:Hc.
  - cbn [fst] in H.
    destruct (fst (fail_fast (validation_checks c))) as [[|]|e'] eqn:Hff.
    + discriminate.
    + injection H as <-. split; [reflexivity|]. exists c. split; [reflexivity|].
      rewrite validate_run. exact Hff.
    + injection H as ->. rewrite (validate_no_ValueError c Hff) in Hve. discriminate.
  - cbn [fst] in H. injection H as ->.
    pose proof (config_of_data_TypeError _ Hc) as Hcls.
    unfold is_ValueError in Hve. rewrite Hcls in Hve. discriminate.
Qed.

End ConstructionProofs.

(** ** Devices and the deployment loop *)

Section DeviceProofs.
Context {fleet : Fleet}.

Local Abbreviation vlan_record self :=
  (fun vlan : VLANConfig.t =>
     EvLog (mkLog INFO "Configuring VLAN {} on {}"
                  [AVal (VLANConfig.id vlan); hostname_arg self])).

Lemma Switch_vlans_loop_events (self : NetworkDevice) (vl : list VLANConfig.t) (w : world) :
  Switch_vlans_loop self vl w = (Val tt, w, map (vlan_record self) vl).
Proof.
  induction vl as [|vlan rest IH]; [reflexivity|].
  cbn [Switch_vlans_loop map]. unfold bind, logger_info, emit. rewrite IH. reflexivity.
Qed.

(** X14: a switch logs one record for the deployment and then one record
    per VLAN, in the order of the list and with the id of the VLAN as it
    is; it returns [True] whatever the configuration, looks at nothing but
    the VLANs, and leaves the state of the devices alone. *)
Theorem Switch_deploy_config_logs_each_vlan (self : NetworkDevice) (config : NetworkConfig.t)
        (w : world) :
  Switch_deploy_config self config w
  = (Val true, w,
     EvLog (mkLog INFO "Deploying configuration to switch {}" [hostname_arg self])
     :: map (vlan_record self) (NetworkConfig.vlans config)).
Proof.
  unfold Switch_deploy_config, bind, logger_info, emit, ret.
  rewrite Switch_vlans_loop_events. cbn. rewrite app_nil_r. reflexivity.
Qed.

Lemma Router_deploy_config_run (self : NetworkDevice) (config : NetworkConfig.t) (w : world) :
  exists evs,
    Router_deploy_config self config w = (Val true, w, evs)
    /\ forallb is_log evs = true
    /\ forallb (fun ev => negb (is_error_log ev)) evs = true.
Proof.
  unfold Router_deploy_config, bind, logger_info, emit, ret.
  destruct (NetworkConfig.dhcp config), (py_truthy (NetworkConfig.firewall_rules config));
    eexists; repeat split.
Qed.

Lemma builtin_deploy_config_run (device : NetworkDevice) (config : NetworkConfig.t) (w : world) :
  kind device <> Custom ->
  exists evs,
    deploy_config device config w = (Val true, w, evs)
    /\ forallb (fun ev => negb (is_error_log ev)) evs = true.
Proof.
  intros Hkind. unfold deploy_config. destruct (kind device); [| |contradiction].
  - destruct (Router_deploy_config_run device config w) as (evs & H & _ & Hinfo). eauto.
  - unfold Switch_deploy_config, bind, logger_info, emit, ret.
    rewrite Switch_vlans_loop_events. cbn [fst snd app]. rewrite app_nil_r.
    eexists. split; [reflexivity|].
    cbn. induction (NetworkConfig.vlans config); [reflexivity | assumption].
Qed.

Lemma deploy_step_flag (config : NetworkConfig.t) (device : NetworkDevice)
      (success : bool) (w : world) :
  deploy_step config device success w
  = (Val (succeeded (result_of (deploy_config device config w)) && success),
     state_of (deploy_step config device true w),
     events_of (deploy_step config device true w)).
Proof.
  unfold deploy_step, try_except, bind, emit, logger_error, ret, result_of, state_of,
    events_of.
  destruct (deploy_config device config w) as [[[[|]|e] w'] evs]; reflexivity.
Qed.

Lemma deploy_loop_flag (config : NetworkConfig.t) (devices : list NetworkDevice) :
  forall (success : bool) (w : world),
    deploy_loop config devices success w
    = (Val (success && forallb succeeded (device_outcomes config devices w)),
       state_of (deploy_loop config devices true w),
       events_of (deploy_loop config devices true w)).
Proof.
  induction devices as [|device rest IH]; intros success w.
  - cbn. rewrite andb_true_r. reflexivity.
  - cbn [deploy_loop device_outcomes]. unfold bind.
    rewrite (deploy_step_flag config device success w).
    rewrite (deploy_step_flag config device true w).
    unfold result_of, state_of, events_of.
    destruct (deploy_config device config w) as [[r w'] evs0] eqn:Hdc. cbn [fst snd].
    destruct (deploy_step config device true w) as [[r1 w1] evs1] eqn:Hstep. cbn [fst snd].
    assert (Hw1 : w1 = w').
    { unfold deploy_step, try_except, bind, emit, logger_error, ret in Hstep.
      rewrite Hdc in Hstep. destruct r as [[|]|e]; cbn in Hstep; congruence. }
    subst w1. rewrite (IH (succeeded r && success) w'), (IH (succeeded r && true) w').
    cbn [fst snd forallb]. f_equal. f_equal. f_equal.
    destruct (succeeded r), success; reflexivity.
Qed.

Lemma bind_ext {S A B} (m : M S A) (f g : A -> M S B) (s : S) :
  (forall a s', f a s' = g a s') -> bind m f s = bind m g s.
Proof.
  intros H. unfold bind. destruct (m s) as [[[a|e] s1] t1]; [|reflexivity].
  rewrite H. reflexivity.
Qed.

Lemma deploy_loop_app (config : NetworkConfig.t) (first second : list NetworkDevice) :
  forall (success : bool) (w : world),
    deploy_loop config (first ++ second) success w
    = bind (deploy_loop config first success)
           (fun success' => deploy_loop config second success') w.
Proof.
  induction first as [|device rest IH]; intros success w.
  - cbn [app deploy_loop]. unfold bind, ret.
    destruct (deploy_loop config second success w) as [[r w'] evs]. reflexivity.
  - cbn [app deploy_loop]. rewrite bind_assoc. apply bind_ext. intros success' w'.
    apply IH.
Qed.

(** X15: deploying to a list of devices followed by another is deploying
    to the first list and then, from the state the devices are left in, to
    the second: the events follow one another and the result is [True]
    exactly when both deployments return [True]. *)
Theorem deploy_configuration_app (config : NetworkConfig.t)
        (first second : list NetworkDevice) (w : world) :
  let w' := state_of (deploy_configuration config first w) in
  deploy_configuration config (first ++ second) w
  = (match result_of (deploy_configuration config first w),
           result_of (deploy_configuration config second w') with
     | Val a, Val b => Val (a && b)
     | Exc e, _ => Exc e
     | _, Exc e => Exc e
     end,
     state_of (deploy_configuration config second w'),
     events_of (deploy_configuration config first w)
     ++ events_of (deploy_configuration config second w')).
Proof.
  cbv zeta. unfold deploy_configuration. rewrite deploy_loop_app. unfold bind.
  rewrite (deploy_loop_flag config first true w).
  unfold result_of, state_of, events_of. cbn [fst snd andb].
  destruct (deploy_loop config first true w) as [[r1 w1] evs1]. cbn [fst snd].
  rewrite (deploy_loop_flag config second (forallb succeeded _) w1).
  rewrite (deploy_loop_flag config second true w1).
  cbn [fst snd andb]. reflexivity.
Qed.

Lemma deploy_loop_builtin (config : NetworkConfig.t) (devices : list NetworkDevice)
      (w : world) :
  Forall (fun device => kind device <> Custom) devices ->
  forall success : bool,
  exists evs,
    deploy_loop config devices success w = (Val success, w, evs)
    /\ deploy_calls evs = devices
    /\ filter is_error_log evs = [].
Proof.
  induction 1 as [|device rest Hkind _ IH]; intros success.
  - exists []. repeat split.
  - destruct (builtin_deploy_config_run device config w Hkind) as (evs0 & Hdc & Hinfo).
    destruct (IH success) as (evs & Hloop & Hcalls & Herr).
    cbn [deploy_loop]. unfold bind, deploy_step, try_except, bind, emit, ret.
    rewrite Hdc. cbn [negb]. rewrite Hloop. eexists. split; [reflexivity|].
    pose proof (deploy_config_logs_only device config w) as Hlogs.
    rewrite Hdc in Hlogs. unfold events_of in Hlogs. cbn [snd] in Hlogs.
    cbn [app]. rewrite !app_nil_r. cbn [deploy_calls is_error_log filter].
    rewrite deploy_calls_app, (deploy_calls_logs _ Hlogs), Hcalls.
    rewrite filter_app, Herr, app_nil_r. split; [reflexivity|].
    clear - Hinfo. induction evs0 as [|ev evs0 IH]; [reflexivity|].
    cbn in *. apply andb_true_iff in Hinfo. destruct Hinfo as [Hev Hrest].
    destruct (is_error_log ev); [discriminate | exact (IH Hrest)].
Qed.

(** X16: deployment does not validate: to routers and switches alone it
    returns [True] for every configuration, valid or not, after calling
    each device in order; no record of level ERROR is logged and the state
    of the devices is unchanged. *)
Theorem deploy_to_builtin_devices_succeeds (config : NetworkConfig.t)
        (devices : list NetworkDevice) (w : world) :
  Forall (fun device => kind device <> Custom) devices ->
  result_of (deploy_configuration config devices w) = Val true
  /\ state_of (deploy_configuration config devices w) = w
  /\ deploy_calls (events_of (deploy_configuration config devices w)) = devices
  /\ filter is_error_log (events_of (deploy_configuration config devices w)) = [].
Proof.
  intros Hbuiltin. unfold deploy_configuration.
  destruct (deploy_loop_builtin config w Hbuiltin true) as (evs & -> & Hcalls & Herr).
  repeat split; assumption.
Qed.
End DeviceProofs.

Section DeployLogProofs.
Context {fleet : Fleet}.

Lemma filter_error_logs_none (evs : list event) :
  forallb (fun ev => negb (is_error_log ev)) evs = true ->
  filter is_error_log evs = [].
Proof.
  induction evs as [|ev evs IH]; [reflexivity|]. cbn.
  rewrite andb_true_iff. intros [Hev Hrest].
  destruct (is_error_log ev); [discriminate | exact (IH Hrest)].
Qed.

Lemma deploy_step_events (config : NetworkConfig.t) (device : NetworkDevice) (w : world) :
  deploy_step config device true w
  = (Val (succeeded (result_of (deploy_config device config w))),
     state_of (deploy_config device config w),
     EvDeploy device :: events_of (deploy_config device config w)
     ++ match result_of (deploy_config device config w) with
        | Val true => []
        | Val false =>
            [EvLog (mkLog ERROR "Failed to deploy config to {}" [hostname_arg device])]
        | Exc e =>
            [EvLog (mkLog ERROR "Error deploying config to {}: {}"
                          [hostname_arg device; AExn e])]
        end).
Proof.
  unfold deploy_step, try_except, bind, logger_error, emit, ret, result_of, state_of,
    events_of.
  destruct (deploy_config device config w) as [[[[|]|e] w'] evs0]; cbn;
    rewrite ?app_nil_r; reflexivity.
Qed.

(** X17: when the devices themselves log nothing at level ERROR,
    [deploy_configuration] logs one ERROR record per device that failed
    (raised or returned [False]) and none for a device that succeeded. *)
Theorem deploy_configuration_one_error_per_failure (config : NetworkConfig.t)
        (devices : list NetworkDevice) (w : world) :
  (forall device c w',
      forallb (fun ev => negb (is_error_log ev))
              (events_of (deploy_config device c w')) = true) ->
  List.length (filter is_error_log (events_of (deploy_configuration config devices w)))
  = List.length (filter (fun r => negb (succeeded r)) (device_outcomes config devices w)).
Proof.
  intros Hquiet. unfold deploy_configuration. revert w.
  induction devices as [|device rest IH]; intros w; [reflexivity|].
  cbn [deploy_loop device_outcomes]. unfold bind.
  rewrite deploy_step_events.
  pose proof (filter_error_logs_none _ (Hquiet device config w)) as Hq.
  unfold result_of, state_of, events_of in *.
  destruct (deploy_config device config w) as [[r w'] evs0]. cbn [fst snd] in *.
  rewrite (deploy_loop_flag config rest _ w'). unfold events_of. cbn [fst snd].
  specialize (IH w'). cbn [app filter is_error_log].
  rewrite !filter_app, Hq, !length_app, IH.
  destruct r as [[|]|e]; reflexivity.
Qed.
End DeployLogProofs.

(** ** DHCPConfig._is_valid_mac: the colons *)

Lemma py_split_length (sep : ascii) (s : string) :
  List.length (py_split sep s) = Datatypes.S (count_char sep s).
Proof.
  induction s as [|c s IH]; [reflexivity|]. cbn.
  destruct (Ascii.eqb c sep); cbn; [rewrite IH; reflexivity|].
  destruct (py_split sep s) as [|g gs]; [discriminate|]. exact IH.
Qed.

(** X18: [_is_valid_mac] accepts a string exactly when it has five colons
    and what is left of it without them parses as one integer in base 16;
    so a string with fewer or more than five colons, such as a MAC address
    written with dashes or with no separator, is refused whatever its
    digits. *)
Theorem is_valid_mac_five_colons (mac : string) :
  (DHCPConfig._is_valid_mac mac = true
   <-> count_char ":"%char mac = 5%nat
       /\ exists value, py_int16 (py_remove ":"%char mac) = Some value)
  /\ (count_char ":"%char mac <> 5%nat -> DHCPConfig._is_valid_mac mac = false).
Proof.
  unfold DHCPConfig._is_valid_mac. rewrite py_split_length.
  change (Nat.eqb (Datatypes.S (count_char ":"%char mac)) 6)
    with (Nat.eqb (count_char ":"%char mac) 5).
  destruct (Nat.eqb_spec (count_char ":"%char mac) 5) as [Hfive|Hother]; cbn [negb].
  - split; [|contradiction].
    destruct (py_int16 (py_remove ":"%char mac)) as [value|].
    + split; [intros _; split; [exact Hfive | exists value; reflexivity] | reflexivity].
    + split; [discriminate | intros [_ [value H]]; discriminate].
  - split; [|reflexivity]. split; [discriminate | intros [H _]; contradiction].
Qed.

(** ** Well-typed configurations *)

Lemma fail_fast_bool (checks : list check) :
  Forall (fun ck => exists b : bool, fst ck = Val b) checks ->
  exists b : bool, fst (fail_fast checks) = Val b.
Proof.
  induction 1 as [|[r evs] rest [b Hb] _ [b' IH]]; [exists true; reflexivity|].
  cbn [fst] in Hb. subst r. cbn [fail_fast]. destruct b.
  - destruct (fail_fast rest) as [r' evs']. exists b'. exact IH.
  - exists false. reflexivity.
Qed.

Section TypedProofs.
Context {lib : Ipaddress}.

Lemma VLAN_validate_typed (v : VLANConfig.t) :
  wt_vlan v = true -> exists b : bool, fst (vlan_check v) = Val b.
Proof.
  destruct v as [i n s]. unfold wt_vlan. cbn. rewrite !andb_true_iff.
  intros [[Hi _] Hs]. destruct i as [| |z| | | |]; try discriminate.
  destruct s as [| | | |subnet| |]; try discriminate.
  pose proof (VLAN_validate_int z n (PStr subnet) tt) as Hrun.
  unfold vlan_check, run_alone. rewrite Hrun.
  destruct ((1 <=? z) && (z <=? 4094)); [|exists false; reflexivity].
  cbn [ip_network_outcome]. destruct (ip_network_str subnet); cbn.
  - exists false. reflexivity.
  - exists true. reflexivity.
Qed.

Lemma validate_typed (c : NetworkConfig.t) :
  wt_config c = true ->
  exists b : bool, fst (fail_fast (validation_checks c)) = Val b.
Proof.
  intros Hwt. unfold wt_config in Hwt. rewrite !andb_true_iff in Hwt.
  destruct Hwt as [[Hdhcp Hvlans] Hdns].
  apply fail_fast_bool. unfold validation_checks. rewrite !Forall_app. repeat split.
  - unfold dhcp_checks. destruct (NetworkConfig.dhcp c) as [d|]; [|constructor].
    destruct (wt_dhcp_inv d Hdhcp) as (items & subnet & gateway & -> & Htyped).
    destruct (@DHCP_validate_typed lib items subnet gateway Htyped) as [b [Hb _]].
    constructor; [exists b; exact Hb | constructor].
  - apply Forall_map, Forall_forall. intros v Hin. apply VLAN_validate_typed.
    rewrite forallb_forall in Hvlans. exact (Hvlans v Hin).
  - constructor; [|constructor]. destruct (wt_vlans_ids _ Hvlans) as [zs Hzs].
    unfold duplicate_check, py_set. rewrite Hzs.
    destruct (py_set_from_ints zs []) as (d & Hd & _). cbn [map] in Hd. rewrite Hd.
    destruct (Nat.eqb _ _); eexists; reflexivity.
  - destruct (NetworkConfig.dns_servers c) as [| | | | |servers|]; try discriminate.
    unfold dns_checks. cbn [py_iter]. apply Forall_map, Forall_forall.
    intros dns Hin. rewrite forallb_forall in Hdns. specialize (Hdns dns Hin).
    destruct dns as [| | | |s| |]; try discriminate.
    unfold dns_check. cbn [ip_address_outcome].
    destruct (ip_address_str s); cbn; eexists; reflexivity.
Qed.

(** X19: on a configuration whose fields have their declared types,
    [validate] always returns a boolean: no exception gets out, whatever
    the library makes of the strings. A VLAN with its declared types gets a
    boolean from [VLANConfig.validate] as well. *)
Theorem validate_typed_returns_bool (c : NetworkConfig.t) :
  wt_config c = true ->
  (exists b : bool, result_of (NetworkConfig.validate c) = Val b)
  /\ (forall v, In v (NetworkConfig.vlans c) ->
                exists b : bool, forall (S : Type) (s : S),
                    result_of (VLANConfig.validate v s) = Val b).
Proof.
  intros Hwt. split.
  - rewrite validate_run. exact (validate_typed c Hwt).
  - intros v Hin. unfold wt_config in Hwt. rewrite !andb_true_iff in Hwt.
    destruct Hwt as [[_ Hvlans] _]. rewrite forallb_forall in Hvlans.
    destruct (VLAN_validate_typed v (Hvlans v Hin)) as [b Hb]. exists b.
    intros S s. rewrite VLAN_validate_frame. exact Hb.
Qed.
End TypedProofs.

(** ** The order of the entries *)

Lemma f_equal_iff_Val (b : bool) : Val b = Val true <-> b = true.
Proof. split; [intros [= ->]; reflexivity | intros ->; reflexivity]. Qed.

Section OrderProofs.
Context {lib : Ipaddress}.

Lemma DHCP_typed_true_iff (items : pydict) (subnet gateway : pyval) :
  fst (run_alone (DHCPConfig.validate (DHCPConfig.mk (PDict items) subnet gateway)))
  = Val true
  <-> ip_network_outcome subnet = None
      /\ ip_address_outcome gateway = None
      /\ Forall (fun kv => DHCPConfig._is_valid_mac (fst kv) = true
                           /\ ip_address_outcome (snd kv) = None) items.
Proof.
  rewrite DHCP_validate_closed. cbv zeta.
  cbn [DHCPConfig.subnet DHCPConfig.gateway DHCPConfig.reservations py_items].
  rewrite <- reservations_loop_true.
  destruct (ip_network_outcome subnet) as [e|].
  { split; [destruct (is_ValueError e); discriminate | intros [H _]; discriminate]. }
  destruct (ip_address_outcome gateway) as [e|].
  { split; [destruct (is_ValueError e); discriminate | intros (_ & H & _); discriminate]. }
  destruct (run_alone (DHCPConfig.reservations_loop items)) as [[b|e] evs]; cbn [fst].
  - split; [intros H; repeat split; exact H | intros (_ & _ & H); exact H].
  - split; [destruct (is_ValueError e); discriminate | intros (_ & _ & H); discriminate].
Qed.

(** X20: the verdict on a DHCP block whose fields have their declared
    types does not depend on the order of its reservations (the record
    that is logged may). *)
Theorem dhcp_validate_order_of_reservations (items items' : pydict)
        (subnet gateway : string) :
  forallb (fun kv => is_str (snd kv)) items = true ->
  Permutation items items' ->
  result_of (DHCPConfig.validate (DHCPConfig.mk (PDict items) (PStr subnet) (PStr gateway)) tt)
  = result_of (DHCPConfig.validate
                 (DHCPConfig.mk (PDict items') (PStr subnet) (PStr gateway)) tt).
Proof.
  intros Htyped Hperm.
  assert (Htyped' : forallb (fun kv => is_str (snd kv)) items' = true).
  { rewrite forallb_forall in *. intros kv Hin. apply Htyped.
    apply (Permutation_in _ (Permutation_sym Hperm) Hin). }
  rewrite !DHCP_validate_frame. unfold result_of. cbn [fst].
  destruct (@DHCP_validate_typed lib items subnet gateway Htyped) as [b [Hb _]].
  destruct (@DHCP_validate_typed lib items' subnet gateway Htyped') as [b' [Hb' _]].
  rewrite Hb, Hb'. f_equal.
  assert (Hiff : b = true <-> b' = true).
  { rewrite <- (f_equal_iff_Val b), <- (f_equal_iff_Val b'), <- Hb, <- Hb'.
    rewrite !DHCP_typed_true_iff. split; intros (Hs & Hg & Hall); repeat split;
      try assumption.
    - exact (Permutation_Forall Hperm Hall).
    - exact (Permutation_Forall (Permutation_sym Hperm) Hall). }
  destruct b, b'; intuition congruence.
Qed.

Lemma wt_config_perm (c c' : NetworkConfig.t) (servers servers' : list pyval) :
  wt_config c = true ->
  NetworkConfig.dhcp c = NetworkConfig.dhcp c' ->
  Permutation (NetworkConfig.vlans c) (NetworkConfig.vlans c') ->
  NetworkConfig.dns_servers c = PList servers ->
  NetworkConfig.dns_servers c' = PList servers' ->
  Permutation servers servers' ->
  wt_config c' = true.
Proof.
  unfold wt_config. intros Hwt Hdhcp Hvlans Hdns Hdns' Hservers.
  rewrite !andb_true_iff in *. destruct Hwt as [[Hd Hv] Hs].
  rewrite <- Hdhcp, Hdns'. rewrite Hdns in Hs. repeat split.
  - exact Hd.
  - rewrite forallb_forall in *. intros v Hin. apply Hv.
    exact (Permutation_in _ (Permutation_sym Hvlans) Hin).
  - rewrite forallb_forall in *. intros x Hin. apply Hs.
    exact (Permutation_in _ (Permutation_sym Hservers) Hin).
Qed.

Lemma checks_pass_perm (c c' : NetworkConfig.t) (servers servers' : list pyval) :
  wt_config c = true ->
  NetworkConfig.dhcp c = NetworkConfig.dhcp c' ->
  Permutation (NetworkConfig.vlans c) (NetworkConfig.vlans c') ->
  NetworkConfig.dns_servers c = PList servers ->
  NetworkConfig.dns_servers c' = PList servers' ->
  Permutation servers servers' ->
  Forall (fun ck : check => fst ck = Val true) (validation_checks c) ->
  Forall (fun ck : check => fst ck = Val true) (validation_checks c').
Proof.
  intros Hwt Hdhcp Hvlans Hdns Hdns' Hservers.
  pose proof (wt_config_perm c c' Hwt Hdhcp Hvlans Hdns Hdns' Hservers) as Hwt'.
  unfold wt_config in Hwt, Hwt'. rewrite !andb_true_iff in Hwt, Hwt'.
  destruct Hwt as [[_ Hv] _]. destruct Hwt' as [[_ Hv'] _].
  destruct (wt_vlans_ids _ Hv) as [zs Hzs]. destruct (wt_vlans_ids _ Hv') as [zs' Hzs'].
  unfold validation_checks. rewrite !Forall_app, <- Hdhcp, Hdns, Hdns'.
  unfold dns_checks. cbn [py_iter].
  intros (Hd & Hvl & Hdup & Hs). repeat split.
  - exact Hd.
  - exact (Permutation_Forall (Permutation_map vlan_check Hvlans) Hvl).
  - constructor; [|constructor]. inversion Hdup as [|? ? Hck _]; subst.
    apply (@duplicate_check_ints (NetworkConfig.vlans c') zs' Hzs').
    apply (@duplicate_check_ints (NetworkConfig.vlans c) zs Hzs) in Hck.
    apply NoDup_map_PInt_iff. rewrite <- Hzs'.
    apply (Permutation_NoDup (Permutation_map VLANConfig.id Hvlans)).
    rewrite Hzs. apply NoDup_map_PInt_iff, Hck.
  - exact (Permutation_Forall (Permutation_map dns_check Hservers) Hs).
Qed.

(** X21: the verdict on a configuration whose fields have their declared
    types does not depend on the order of its VLANs or of its DNS servers:
    two such configurations with the same DHCP block, the same VLANs and
    the same DNS servers in another order get the same boolean. *)
Theorem validate_order_of_entries (c c' : NetworkConfig.t)
        (servers servers' : list pyval) :
  wt_config c = true ->
  NetworkConfig.dhcp c = NetworkConfig.dhcp c' ->
  Permutation (NetworkConfig.vlans c) (NetworkConfig.vlans c') ->
  NetworkConfig.dns_servers c = PList servers ->
  NetworkConfig.dns_servers c' = PList servers' ->
  Permutation servers servers' ->
  result_of (NetworkConfig.validate c) = result_of (NetworkConfig.validate c').
Proof.
  intros Hwt Hdhcp Hvlans Hdns Hdns' Hservers.
  pose proof (wt_config_perm c c' Hwt Hdhcp Hvlans Hdns Hdns' Hservers) as Hwt'.
  rewrite !validate_run. unfold result_of. cbn [fst].
  destruct (validate_typed c Hwt) as [b Hb]. destruct (validate_typed c' Hwt') as [b' Hb'].
  assert (Hiff : b = true <-> b' = true).
  { rewrite <- (f_equal_iff_Val b), <- (f_equal_iff_Val b'), <- Hb, <- Hb'.
    rewrite !fail_fast_true. split.
    - exact (checks_pass_perm c c' Hwt Hdhcp Hvlans Hdns Hdns' Hservers).
    - exact (checks_pass_perm c' c Hwt' (eq_sym Hdhcp) (Permutation_sym Hvlans)
               Hdns' Hdns (Permutation_sym Hservers)). }
  rewrite Hb, Hb'. f_equal. destruct b, b'; intuition congruence.
Qed.
End OrderProofs.

(** ** fetch_config *)

(** X22: [fetch_config] swallows nothing and converts nothing: it returns
    what the response denotes when the request, the status check and the
    parsing all succeed, and otherwise raises the very exception that the
    failing step raised; it logs one ERROR record when that exception is a
    [RequestException], and nothing in every other case. *)
Theorem fetch_config_reraises {http : Requests} {S : Type} (api_url : string) (s : S) :
  result_of (fetch_config api_url s) = request_outcome api_url
  /\ state_of (fetch_config api_url s) = s
  /\ events_of (fetch_config api_url s)
     = match request_outcome api_url with
       | Val _ => []
       | Exc e =>
           if is_RequestException e then
             [EvLog (mkLog ERROR "Failed to fetch configuration: {}" [AExn e])]
           else []
       end.
Proof.
  unfold fetch_config, request_outcome, try_except, bind, lift_res, logger_error, emit,
    raise, ret, result_of, state_of, events_of.
  destruct (requests_get api_url 10) as [r|e]; cbn.
  - destruct (raise_for_status r) as [e|]; cbn.
    + destruct (is_RequestException e); repeat split.
    + destruct (response_json r) as [v|e]; cbn; [repeat split|].
      destruct (is_RequestException e); repeat split.
  - destruct (is_RequestException e); repeat split.
Qed.

(** ** The script *)

Lemma fail_fast_no_calls (checks : list check) :
  Forall (fun ck : check => deploy_calls (snd ck) = []) checks ->
  deploy_calls (snd (fail_fast checks)) = [].
Proof.
  induction 1 as [|[r evs] rest Hck _ IH]; [reflexivity|]. cbn [fail_fast].
  destruct r as [[|]|e]; try exact Hck.
  destruct (fail_fast rest) as [r' evs']. cbn [snd] in *.
  rewrite deploy_calls_app, Hck, IH. reflexivity.
Qed.

Section ScriptProofs.
Context {lib : Ipaddress} {fleet : Fleet}.

Lemma reservations_loop_no_calls (items : pydict) :
  deploy_calls (snd (run_alone (DHCPConfig.reservations_loop items))) = [].
Proof.
  induction items as [|[mac ip] rest IH]; [reflexivity|].
  rewrite reservations_loop_cons.
  destruct (DHCPConfig._is_valid_mac mac); [|reflexivity].
  destruct (ip_address_outcome ip); [reflexivity | exact IH].
Qed.

Lemma validation_no_calls (c : NetworkConfig.t) :
  deploy_calls (snd (fail_fast (validation_checks c))) = [].
Proof.
  apply fail_fast_no_calls. unfold validation_checks. rewrite !Forall_app. repeat split.
  - unfold dhcp_checks. destruct (NetworkConfig.dhcp c) as [d|]; [|constructor].
    constructor; [|constructor]. rewrite DHCP_validate_closed. cbv zeta.
    destruct (ip_network_outcome _) as [e|]; [destruct (is_ValueError e); reflexivity|].
    destruct (ip_address_outcome _) as [e|]; [destruct (is_ValueError e); reflexivity|].
    destruct (py_items _) as [items|e]; [|destruct (is_ValueError e); reflexivity].
    pose proof (reservations_loop_no_calls items) as Hloop.
    destruct (run_alone (DHCPConfig.reservations_loop items)) as [[b|e] evs];
      cbn [snd] in *; [exact Hloop|].
    destruct (is_ValueError e); cbn [snd]; [|exact Hloop].
    rewrite deploy_calls_app. cbn [deploy_calls app]. rewrite Hloop. reflexivity.
  - apply Forall_map, Forall_forall. intros v _.
    unfold vlan_check, run_alone, VLANConfig.validate, try_except, bind, lift_res,
      logger_error, emit, ret.
    destruct (py_between 1 (VLANConfig.id v) 4094) as [[|]|e]; cbn -[ip_network].
    + rewrite ip_network_run.
      destruct (ip_network_outcome _) as [e|]; [|reflexivity].
      destruct (is_ValueError e); reflexivity.
    + reflexivity.
    + destruct (is_ValueError e); reflexivity.
  - constructor; [|constructor]. unfold duplicate_check.
    destruct (py_set _); [|reflexivity]. destruct (Nat.eqb _ _); reflexivity.
  - unfold dns_checks. destruct (py_iter _) as [servers|e].
    + apply Forall_map, Forall_forall. intros dns _. unfold dns_check.
      destruct (ip_address_outcome dns) as [e|]; [|reflexivity].
      destruct (is_ValueError e); reflexivity.
    + constructor; [reflexivity | constructor].
Qed.

Lemma logs_nothing_no_error (evs : list event) :
  logs_nothing evs = true -> filter is_error_log evs = [].
Proof.
  induction evs as [|ev evs IH]; [reflexivity|]. cbn.
  rewrite andb_true_iff. intros [Hev Hrest].
  destruct ev; cbn in *; try discriminate; exact (IH Hrest).
Qed.

Lemma from_json_any_events (v : pyval) :
  deploy_calls (snd (from_json_any v)) = []
  /\ (forall c, fst (from_json_any v) = Val c ->
                filter is_error_log (snd (from_json_any v)) = []).
Proof.
  destruct v as [| | | | | |config_data];
    try (cbn; split; [|intros c]; repeat match goal with
                             | |- context [match ?x with _ => _ end] => destruct x
                             end; cbn; congruence).
  cbn [from_json_any]. rewrite from_json_run.
  destruct (config_of_data config_data) as [c|e]; [|split; [reflexivity|discriminate]].
  cbn [fst snd]. split; [apply validation_no_calls|].
  intros c' Hc. apply logs_nothing_no_error.
  pose proof (reports_fail_fast (validation_checks_report c)) as Hrep.
  unfold reports in Hrep.
  destruct (fst (fail_fast (validation_checks c))) as [[|]|e]; try discriminate.
  exact Hrep.
Qed.

(** X23: the script lets an exception out only when [config.json] cannot
    be opened or parsed, and then nothing is logged and no device is
    called. Otherwise it ends normally: when [from_json] raises, whatever
    the value in the file, no device is called and the last event is the
    record "Configuration deployment failed" with that exception; when
    [from_json] returns, [router1] and then [switch1] are called and no
    ERROR record is logged. *)
Theorem script_catches_all_but_loading (loaded : res pyval) (w : world) :
  (forall e, loaded = Exc e -> script loaded w = (Exc e, w, []))
  /\ (forall v,
        loaded = Val v ->
        result_of (script loaded w) = Val tt
        /\ state_of (script loaded w) = w
        /\ (forall e evs,
              from_json_any v = (Exc e, evs) ->
              deploy_calls (events_of (script loaded w)) = []
              /\ events_of (script loaded w)
                 = evs ++ [EvLog (mkLog ERROR "Configuration deployment failed: {}"
                                        [AExn e])])
        /\ (forall c evs,
              from_json_any v = (Val c, evs) ->
              deploy_calls (events_of (script loaded w)) = script_devices
              /\ filter is_error_log (events_of (script loaded w)) = [])).
Proof.
  split.
  - intros e ->. reflexivity.
  - intros v ->.
    destruct (from_json_any_events v) as [Hcalls Hquiet].
    unfold script, try_except, bind, lift_res, logger_error, emit, ret, result_of,
      state_of, events_of. cbn [fst snd].
    destruct (from_json_any v) as [[c|e] evs]; cbn [fst snd] in *.
    + assert (Hbuiltin : Forall (fun device => kind device <> Custom) script_devices)
        by (repeat constructor; discriminate).
      destruct (deploy_loop_builtin c w Hbuiltin true) as (evs' & Hrun & Hcalls' & Herr).
      unfold deploy_configuration. rewrite Hrun. cbn.
      split; [reflexivity|]. split; [reflexivity|]. split; [discriminate|].
      intros c' evs1 Heq. injection Heq as <- <-.
      rewrite !app_nil_r, deploy_calls_app, Hcalls, Hcalls'.
      split; [reflexivity|]. rewrite filter_app, (Hquiet c eq_refl), Herr. reflexivity.
    + cbn. split; [reflexivity|]. split; [reflexivity|]. split; [|discriminate].
      intros e' evs1 Heq. injection Heq as <- <-.
      rewrite deploy_calls_app, Hcalls. split; reflexivity.
Qed.
End ScriptProofs.

(** ** Reservations under a key that is no MAC address *)

Section MalformedMac.
Context {lib : Ipaddress}.

(** C7: [validate] does not return [False] for every DHCP block that has
    a reservation whose key is no MAC address. A key that [_is_valid_mac]
    accepts passes, and [_is_valid_mac] accepts strings that are not six
    groups of two hexadecimal digits: with such a key, and a subnet, a
    gateway and an address that the library accepts, [validate] returns
    [True] after the three calls to the library and logs nothing. So it is
    with the key "a:::::" on the reference library. *)
Theorem dhcp_validate_accepts_malformed_mac :
  (forall (mac subnet gateway ip : string),
      DHCPConfig._is_valid_mac mac = true ->
      ip_network_outcome (PStr subnet) = None ->
      ip_address_outcome (PStr gateway) = None ->
      ip_address_outcome (PStr ip) = None ->
      forall (S : Type) (s : S),
        DHCPConfig.validate
          (DHCPConfig.mk (PDict [(mac, PStr ip)]) (PStr subnet) (PStr gateway)) s
        = (Val true, s,
           [EvIpNetwork (PStr subnet); EvIpAddress (PStr gateway); EvIpAddress (PStr ip)]))
  /\ Forall (fun mac => is_valid_mac_spec mac = false
                        /\ DHCPConfig._is_valid_mac mac = true)
            ["a:::::"; "aabbccddeeff:::::"; "1:2:3:4:5:6"; "-a:bb:cc:dd:ee:ff";
             "0x:bb:cc:dd:ee:ff"; "a_:bb:cc:dd:ee:ff"; " aa:bb:cc:dd:ee:ff "]
  /\ (is_valid_mac_spec "a:::::" = false
      /\ wt_dhcp (DHCPConfig.mk (PDict [("a:::::", PStr "192.168.1.10")])
                                (PStr "192.168.1.0/24") (PStr "192.168.1.1"))
         = true
      /\ DHCPConfig.validate (lib := Reference.ipv4_only)
           (DHCPConfig.mk (PDict [("a:::::", PStr "192.168.1.10")])
                          (PStr "192.168.1.0/24") (PStr "192.168.1.1")) tt
         = (Val true, tt,
            [EvIpNetwork (PStr "192.168.1.0/24"); EvIpAddress (PStr "192.168.1.1");
             EvIpAddress (PStr "192.168.1.10")])).
Proof.
  split; [|split].
  - intros mac subnet gateway ip Hmac Hsubnet Hgateway Hip S s.
    rewrite DHCP_validate_frame, DHCP_validate_closed. cbv zeta.
    cbn [DHCPConfig.subnet DHCPConfig.gateway DHCPConfig.reservations].
    rewrite Hsubnet, Hgateway. cbn [py_items].
    rewrite reservations_loop_cons, Hmac, Hip. reflexivity.
  - repeat constructor; vm_compute; reflexivity.
  - repeat split; vm_compute; reflexivity.
Qed.
End MalformedMac.

(** ** The further properties on examples *)

(** A valid DHCP block: the library is called four times and nothing is
    logged. *)
Lemma dhcp_validate_true_trace_witness :
  result_of (DHCPConfig.validate (lib := Reference.ipv4_only) Samples.dhcp tt) = Val true
  /\ exists items : pydict,
      DHCPConfig.reservations Samples.dhcp = PDict items
      /\ forall (S : Type) (s : S),
          DHCPConfig.validate (lib := Reference.ipv4_only) Samples.dhcp s
          = (Val true, s,
             EvIpNetwork (DHCPConfig.subnet Samples.dhcp)
             :: EvIpAddress (DHCPConfig.gateway Samples.dhcp)
             :: map (fun kv => EvIpAddress (snd kv)) items).
Proof.
  split; [reflexivity|].
  apply (dhcp_validate_true_trace (lib := Reference.ipv4_only) Samples.dhcp).
  reflexivity.
Defined.

(** Reservations given as a list. *)
Lemma dhcp_validate_reservations_not_a_mapping_witness :
  exists e : exn,
    exn_cls e = AttributeError
    /\ DHCPConfig.validate (lib := Reference.ipv4_only) Samples.dhcp_reservations_list tt
       = (Exc e, tt,
          [EvIpNetwork (PStr "192.168.1.0/24"); EvIpAddress (PStr "192.168.1.1")]).
Proof.
  apply (dhcp_validate_reservations_not_a_mapping
           (lib := Reference.ipv4_only) Samples.dhcp_reservations_list).
  - intros items. discriminate.
  - reflexivity.
  - reflexivity.
Defined.

(** An id given as the string "10". *)
Lemma vlan_validate_id_not_a_number_witness :
  exists e : exn,
    exn_cls e = TypeError
    /\ VLANConfig.validate (lib := Reference.ipv4_only) Samples.vlan_id_string tt
       = (Exc e, tt, []).
Proof.
  apply (vlan_validate_id_not_a_number (lib := Reference.ipv4_only) Samples.vlan_id_string).
  reflexivity.
Defined.

(** The example configuration is valid, so its VLAN ids are distinct. *)
Lemma validate_true_iff_witness :
  wt_config (Reference.example_config ["8.8.8.8"]) = true
  /\ result_of (NetworkConfig.validate (lib := Reference.ipv4_only)
                  (Reference.example_config ["8.8.8.8"]))
     = Val true
  /\ NoDup (map VLANConfig.id (NetworkConfig.vlans (Reference.example_config ["8.8.8.8"]))).
Proof.
  split; [reflexivity|]. split; [reflexivity|].
  exact (proj1 (proj2 (proj2
           (proj1 (validate_true_iff (lib := Reference.ipv4_only)
                     (Reference.example_config ["8.8.8.8"]) eq_refl)
                  eq_refl)))).
Defined.

(** The example mapping: two VLANs, and the DNS servers as they are. *)
Lemma from_json_copies_fields_witness :
  NetworkConfig.from_json (lib := Reference.ipv4_only) (Reference.example_data ["8.8.8.8"])
  = (Val (Reference.example_config ["8.8.8.8"]),
     events_of (NetworkConfig.validate (lib := Reference.ipv4_only)
                  (Reference.example_config ["8.8.8.8"])))
  /\ NetworkConfig.dns_servers (Reference.example_config ["8.8.8.8"])
     = dict_get_default "dns_servers" (PList []) (Reference.example_data ["8.8.8.8"])
  /\ NetworkConfig.firewall_rules (Reference.example_config ["8.8.8.8"])
     = dict_get_default "firewall_rules" (PList []) (Reference.example_data ["8.8.8.8"]).
Proof.
  split; [reflexivity|].
  pose proof (from_json_copies_fields (lib := Reference.ipv4_only)
                (Reference.example_data ["8.8.8.8"]) eq_refl) as H.
  exact (conj (proj1 H) (proj1 (proj2 H))).
Defined.

(** The example mapping with a DNS server the library refuses. *)
Lemma from_json_ValueError_is_its_own_witness :
  exists e : exn,
    fst (NetworkConfig.from_json (lib := Reference.ipv4_only)
           (Reference.example_data ["8.8.8.8"; "999.999.999.999"]))
    = Exc e
    /\ e = mkExn ValueError "Invalid configuration data"
    /\ exists c,
        config_of_data (Reference.example_data ["8.8.8.8"; "999.999.999.999"]) = Val c
        /\ result_of (NetworkConfig.validate (lib := Reference.ipv4_only) c) = Val false.
Proof.
  exists (mkExn ValueError "Invalid configuration data").
  split; [reflexivity|].
  apply (from_json_ValueError_is_its_own
           (lib := Reference.ipv4_only)
           (Reference.example_data ["8.8.8.8"; "999.999.999.999"])).
  - reflexivity.
  - reflexivity.
Defined.


(** The two devices of the script take a configuration that is not valid. *)
Lemma deploy_to_builtin_devices_succeeds_witness :
  result_of (NetworkConfig.validate (lib := Reference.ipv4_only) Reference.two_vlans_id_10)
  = Val false
  /\ result_of (deploy_configuration (fleet := Reference.test_fleet)
                  Reference.two_vlans_id_10 script_devices 0%nat)
     = Val true.
Proof.
  split; [reflexivity|].
  apply (deploy_to_builtin_devices_succeeds
           (fleet := Reference.test_fleet) Reference.two_vlans_id_10 (devices := script_devices)
           0%nat).
  repeat constructor; discriminate.
Defined.

(** Four devices of which one raises and one returns [False]: two ERROR
    records. *)
Lemma deploy_configuration_one_error_per_failure_witness :
  List.length
    (filter is_error_log
       (events_of (deploy_configuration (fleet := Reference.test_fleet)
                     (Reference.example_config ["8.8.8.8"])
                     [mkDevice Custom "down" "192.168.1.1";
                      mkDevice Switch "switch1" "192.168.1.2";
                      mkDevice Custom "refuses" "192.168.1.3";
                      mkDevice Custom "up" "192.168.1.4"]
                     0%nat)))
  = 2%nat.
Proof.
  apply (deploy_configuration_one_error_per_failure
           (fleet := Reference.test_fleet) (Reference.example_config ["8.8.8.8"])
           [mkDevice Custom "down" "192.168.1.1";
            mkDevice Switch "switch1" "192.168.1.2";
            mkDevice Custom "refuses" "192.168.1.3";
            mkDevice Custom "up" "192.168.1.4"]
           0%nat).
  intros device c w'.
  destruct (kind device) eqn:Hkind.
  - destruct (builtin_deploy_config_run (fleet := Reference.test_fleet) device c w')
      as (evs & -> & Hevs); [rewrite Hkind; discriminate | exact Hevs].
  - destruct (builtin_deploy_config_run (fleet := Reference.test_fleet) device c w')
      as (evs & -> & Hevs); [rewrite Hkind; discriminate | exact Hevs].
  - unfold deploy_config. rewrite Hkind. cbn.
    destruct (String.eqb (hostname device) "down"); [reflexivity|].
    destruct (String.eqb (hostname device) "refuses"); reflexivity.
Defined.

(** The example configuration has its declared types. *)
Lemma validate_typed_returns_bool_witness :
  wt_config (Reference.example_config ["8.8.8.8"]) = true
  /\ exists b : bool,
      result_of (NetworkConfig.validate (lib := Reference.ipv4_only)
                   (Reference.example_config ["8.8.8.8"]))
      = Val b.
Proof.
  split; [reflexivity|].
  exact (proj1 (validate_typed_returns_bool (lib := Reference.ipv4_only)
                  (Reference.example_config ["8.8.8.8"]) eq_refl)).
Defined.

(** The two reservations of the example in the other order. *)
Lemma dhcp_validate_order_of_reservations_witness :
  result_of (DHCPConfig.validate (lib := Reference.ipv4_only)
               (DHCPConfig.mk (PDict Samples.reservations)
                              (PStr "192.168.1.0/24") (PStr "192.168.1.1")) tt)
  = result_of (DHCPConfig.validate (lib := Reference.ipv4_only)
                 (DHCPConfig.mk (PDict (rev Samples.reservations))
                                (PStr "192.168.1.0/24") (PStr "192.168.1.1")) tt).
Proof.
  apply (dhcp_validate_order_of_reservations (lib := Reference.ipv4_only)).
  - reflexivity.
  - apply Permutation_rev.
Defined.

(** The example configuration with its VLANs and its DNS servers swapped. *)
Lemma validate_order_of_entries_witness :
  result_of (NetworkConfig.validate (lib := Reference.ipv4_only)
               (Reference.example_config ["8.8.8.8"; "1.1.1.1"]))
  = result_of (NetworkConfig.validate (lib := Reference.ipv4_only)
                 Samples.example_config_reordered).
Proof.
  apply (validate_order_of_entries
           (lib := Reference.ipv4_only)
           (Reference.example_config ["8.8.8.8"; "1.1.1.1"])
           Samples.example_config_reordered
           (servers := [PStr "8.8.8.8"; PStr "1.1.1.1"])
           (servers' := [PStr "1.1.1.1"; PStr "8.8.8.8"])).
  - reflexivity.
  - reflexivity.
  - apply perm_swap.
  - reflexivity.
  - reflexivity.
  - apply perm_swap.
Defined.
